(** * LLDB MCP server: session manager and command proxy

    A shallow embedding of [lldb_mcp.py].  The six tool functions and
    [run_lldb_command_func] are translated into a state-and-exception monad
    over an explicit world (native engine, file system, the global
    [debugger_state] dictionary).  The native engine ([lldb]) is an interface
    ([Lldb]) the development is parametric in; the file system is a small
    concrete model of what [os.path.exists] and [open(path, "w")] observe.

    The names [initialize_debugger], [run_lldb_command], ... stand for the
    function bodies.  The registered tools are these bodies wrapped by
    [log_tool_call], which prints the call and the result through the rich
    console before handing the result back; [run_tool] is the wrapped tool.
    What rich accepts as markup, and how Python prints the arguments and the
    result, is an interface too ([Logger]). *)

From stdpp Require Import gmap strings list fin_maps pretty.
From Stdlib Require Import ZArith Ascii String.

(** ** Python values and exceptions *)

(** The values stored in the dictionaries the tools return. *)
Inductive PyVal :=
  | PyNone
  | PyBool (b : bool)
  | PyInt (z : Z)
  | PyStr (s : string).

#[global] Instance PyVal_eq_dec : EqDecision PyVal.
Proof. solve_decision. Defined.

(** The exceptions the modelled statements can raise. *)
Inductive PyExn :=
  | OSError (msg : string)
  | IndexError (msg : string)
  | TypeError (msg : string)
  | AttributeError (msg : string)
  | MarkupError (msg : string).

(** [str(e)] *)
Definition exn_str (e : PyExn) : string :=
  match e with
  | OSError msg | IndexError msg | TypeError msg | AttributeError msg
  | MarkupError msg => msg
  end.

(** A dictionary literal [{k1: v1, ..., kn: vn}]: items are stored left to
    right, so a later duplicate key replaces an earlier one. *)
Definition dict_of {K} `{Countable K} {V} (items : list (K * V)) : gmap K V :=
  foldl (λ m kv, <[kv.1 := kv.2]> m) ∅ items.

(** [d.get(k, default)] *)
Definition dict_get {K} `{Countable K} {V} (d : gmap K V) (k : K) (dflt : V) : V :=
  default dflt (d !! k).

(** [k in d] *)
Definition dict_has {K} `{Countable K} {V} (d : gmap K V) (k : K) : bool :=
  bool_decide (is_Some (d !! k)).

(** ** Python strings *)

(** Truthiness of a [str]: non-empty. *)
Definition str_bool (s : string) : bool :=
  match s with
  | EmptyString => false
  | String _ _ => true
  end.

(** [needle in hay] for two strings. *)
Fixpoint str_in (needle hay : string) : bool :=
  String.prefix needle hay ||
  match hay with
  | EmptyString => false
  | String _ hay' => str_in needle hay'
  end.

(** [s.startswith(p)] *)
Definition startswith (s p : string) : bool := String.prefix p s.

(** [s.split(sep)] for a one-character separator. *)
Fixpoint str_split (sep : ascii) (s : string) : list string :=
  match s with
  | EmptyString => [EmptyString]
  | String c s' =>
      if Ascii.eqb c sep then EmptyString :: str_split sep s'
      else match str_split sep s' with
           | [] => [String c EmptyString]
           | part :: parts => String c part :: parts
           end
  end.

Definition colon : ascii := ":"%char.

(** How an f-string renders an optional C string ([None] prints as "None"). *)
Definition fmt_opt_str (o : option string) : string :=
  match o with
  | Some s => s
  | None => "None"
  end.

(** An optional string as a dictionary value. *)
Definition opt_str_val (o : option string) : PyVal :=
  match o with
  | Some s => PyStr s
  | None => PyNone
  end.

(** ** Outcomes: a returned value or a raised exception *)

Inductive Outcome (A : Type) :=
  | Return (a : A)
  | Raise (e : PyExn).
Arguments Return {A} a.
Arguments Raise {A} e.

#[global] Instance Outcome_ret : MRet Outcome := @Return.
#[global] Instance Outcome_bind : MBind Outcome := λ A B k o,
  match o with
  | Return a => k a
  | Raise e => Raise e
  end.

(** [l[i]] *)
Definition list_index {A} (l : list A) (i : nat) : Outcome A :=
  match l !! i with
  | Some x => Return x
  | None => Raise (IndexError "list index out of range")
  end.

(** The receiver of a method call [o.method(...)]: [None] has no methods. *)
Definition receiver {A} (o : option A) : Outcome A :=
  match o with
  | Some x => Return x
  | None => Raise (AttributeError "'NoneType' object has no attribute")
  end.

(** [needle in v] for a dictionary value [v]: defined on strings only. *)
Definition val_contains (needle : string) (v : PyVal) : Outcome bool :=
  match v with
  | PyStr s => Return (str_in needle s)
  | _ => Raise (TypeError "argument is not iterable")
  end.

(** ** The file system *)

Inductive FsEntry :=
  | Directory
  | RegularFile (content : string).

Record FileSystem := mkFs {
  (** path -> what is there *)
  fs_entries : gmap string FsEntry;
  (** why opening a path for writing would fail (permissions, missing
      parent directory), if it would *)
  fs_write_error : string → option string;
  (** paths of the file objects currently open *)
  fs_open_files : list string
}.

(** [os.path.exists(path)] *)
Definition path_exists (fs : FileSystem) (path : string) : bool :=
  bool_decide (is_Some (fs_entries fs !! path)).

(** [open(path, "w")]: creates or truncates the file. *)
Definition fs_open_w (fs : FileSystem) (path : string) : Outcome string * FileSystem :=
  match fs_entries fs !! path with
  | Some Directory => (Raise (OSError ("[Errno 21] Is a directory: '" +:+ path +:+ "'")), fs)
  | _ =>
      match fs_write_error fs path with
      | Some msg => (Raise (OSError msg), fs)
      | None =>
          (Return path,
           {| fs_entries := <[path := RegularFile EmptyString]> (fs_entries fs);
              fs_write_error := fs_write_error fs;
              fs_open_files := path :: fs_open_files fs |})
      end
  end.

(** [f.close()] *)
Definition fs_close (fs : FileSystem) (f : string) : FileSystem :=
  {| fs_entries := fs_entries fs;
     fs_write_error := fs_write_error fs;
     fs_open_files := filter (λ p, p ≠ f) (fs_open_files fs) |}.

(** ** The native engine *)

(** [lldb.SBError] after a call that filled it. *)
Record SBError := mkSBError {
  Success : bool;
  GetCString : option string
}.

(** [lldb.SBCommandReturnObject] after [HandleCommand] filled it. *)
Record SBCommandReturnObject := mkSBCommandReturnObject {
  GetOutput : string;
  Succeeded : bool;
  GetError : string
}.

(** What the server uses of the [lldb] module.  [Engine] is the engine's
    whole state.  Validity of a debugger or an interpreter object belongs to
    the object; validity of a target or a process depends on the engine. *)
Class Lldb := {
  Engine : Type;
  SBDebugger : Type;
  SBCommandInterpreter : Type;
  SBTarget : Type;
  SBProcess : Type;
  SBDebugger_Create : Engine → SBDebugger * Engine;
  SBDebugger_Terminate : Engine → Engine;
  SBDebugger_bool : SBDebugger → bool;
  SetAsync : SBDebugger → bool → Engine → Engine;
  GetCommandInterpreter : SBDebugger → Engine → SBCommandInterpreter * Engine;
  SBCommandInterpreter_bool : SBCommandInterpreter → bool;
  CreateTarget : SBDebugger → string → string → Engine → SBTarget * SBError * Engine;
  SBTarget_IsValid : SBTarget → Engine → bool;
  HandleCommand : SBCommandInterpreter → string → Engine → SBCommandReturnObject * Engine;
  GetProcess : SBTarget → Engine → SBProcess;
  SBProcess_IsValid : SBProcess → Engine → bool;
  GetSTDOUT : SBProcess → nat → Engine → string * Engine;
  GetState : SBProcess → Engine → Z;
  GetProcessID : SBProcess → Engine → Z;
  (** the [lldb.eState*] constants *)
  eStateInvalid : Z;
  eStateUnloaded : Z;
  eStateConnected : Z;
  eStateAttaching : Z;
  eStateLaunching : Z;
  eStateStopped : Z;
  eStateRunning : Z;
  eStateStepping : Z;
  eStateCrashed : Z;
  eStateDetached : Z;
  eStateExited : Z;
  eStateSuspended : Z;
  (** the debuggee's buffered standard output is finite: every non-empty
      chunk handed out shrinks what is left *)
  stdout_backlog : SBProcess → Engine → nat;
  GetSTDOUT_drains : ∀ p n e,
    (GetSTDOUT p n e).1 ≠ EmptyString →
    stdout_backlog p (GetSTDOUT p n e).2 < stdout_backlog p e
}.

(** The engine calls that change the engine, as they are recorded. *)
Inductive EngineCall :=
  | Call_Create
  | Call_Terminate
  | Call_SetAsync (async : bool)
  | Call_GetCommandInterpreter
  | Call_CreateTarget (filename arch : string)
  | Call_HandleCommand (command : string)
  | Call_GetSTDOUT (n : nat).

(** ** A small engine to run the server on

    One debugger, one target, at most one process.  It understands three
    commands and rejects targets for any architecture but x86_64. *)
Module Toy.

Record ToyEngine := mkToy {
  toy_process_valid : bool;
  toy_process_state : Z;
  toy_stdout : string
}.

Fixpoint str_take (n : nat) (s : string) : string :=
  match n, s with
  | S n', String c s' => String c (str_take n' s')
  | _, _ => EmptyString
  end.

Fixpoint str_drop (n : nat) (s : string) : string :=
  match n, s with
  | S n', String _ s' => str_drop n' s'
  | _, _ => s
  end.

Definition toy_CreateTarget (_ : unit) (filename arch : string) (e : ToyEngine)
  : bool * SBError * ToyEngine :=
  if String.eqb arch "x86_64" then
    (true, {| Success := true; GetCString := None |}, e)
  else
    (false, {| Success := false; GetCString := Some "unsupported architecture" |}, e).

Definition toy_HandleCommand (_ : unit) (command : string) (e : ToyEngine)
  : SBCommandReturnObject * ToyEngine :=
  if String.prefix "breakpoint set" command then
    ({| GetOutput := "Breakpoint 1: where = a.out`main, address = 0x1000";
        Succeeded := true; GetError := EmptyString |}, e)
  else if String.eqb command "breakpoint list" then
    ({| GetOutput := "No breakpoints currently set.";
        Succeeded := true; GetError := EmptyString |}, e)
  else if String.eqb command "run" then
    ({| GetOutput := "Process 4242 launched";
        Succeeded := true; GetError := EmptyString |},
     {| toy_process_valid := true; toy_process_state := 5; toy_stdout := "hello, world" |})
  else
    ({| GetOutput := EmptyString; Succeeded := false;
        GetError := "error: unrecognized command" |}, e).

Definition toy_GetSTDOUT (_ : unit) (n : nat) (e : ToyEngine) : string * ToyEngine :=
  (str_take n (toy_stdout e),
   {| toy_process_valid := toy_process_valid e;
      toy_process_state := toy_process_state e;
      toy_stdout := str_drop n (toy_stdout e) |}).

#[export] Instance toy_lldb : Lldb.
Proof.
  refine {|
    Engine := ToyEngine;
    SBDebugger := unit;
    SBCommandInterpreter := unit;
    SBTarget := bool;
    SBProcess := unit;
    SBDebugger_Create := λ e, (tt, e);
    SBDebugger_Terminate := λ e,
      {| toy_process_valid := false; toy_process_state := 0; toy_stdout := EmptyString |};
    SBDebugger_bool := λ _, true;
    SetAsync := λ _ _ e, e;
    GetCommandInterpreter := λ _ e, (tt, e);
    SBCommandInterpreter_bool := λ _, true;
    CreateTarget := toy_CreateTarget;
    SBTarget_IsValid := λ t _, t;
    HandleCommand := toy_HandleCommand;
    GetProcess := λ _ _, tt;
    SBProcess_IsValid := λ _ e, toy_process_valid e;
    GetSTDOUT := toy_GetSTDOUT;
    GetState := λ _ e, toy_process_state e;
    GetProcessID := λ _ _, 4242%Z;
    eStateInvalid := 0;
    eStateUnloaded := 1;
    eStateConnected := 2;
    eStateAttaching := 3;
    eStateLaunching := 4;
    eStateStopped := 5;
    eStateRunning := 6;
    eStateStepping := 7;
    eStateCrashed := 8;
    eStateDetached := 9;
    eStateExited := 10;
    eStateSuspended := 11;
    stdout_backlog := λ _ e, String.length (toy_stdout e);
    GetSTDOUT_drains := _
  |}.
  (* a non-empty chunk taken off the front leaves a shorter buffer *)
  intros [] n [valid state buffer]. cbn. revert buffer.
  induction n as [|n IH]; intros [|c s] Hne; cbn in *; try congruence.
  destruct n as [|n]; [cbn; lia|].
  destruct s as [|c' s]; [cbn; lia|].
  etrans; [apply IH; cbn; congruence|cbn; lia].
Defined.

(** A file system with an executable, a writable directory and an old
    output file in it. *)
Definition toy_files : FileSystem :=
  {| fs_entries := dict_of [("/bin/ls", RegularFile "ELF");
                            ("/tmp", Directory);
                            ("/tmp/out.txt", RegularFile "old output")];
     fs_write_error := λ path,
       if String.prefix "/tmp/" path then None
       else Some ("[Errno 13] Permission denied: '" +:+ path +:+ "'");
     fs_open_files := [] |}.

Definition toy_engine : ToyEngine :=
  {| toy_process_valid := false; toy_process_state := 0; toy_stdout := EmptyString |}.

End Toy.

Section Server.
Context `{L : Lldb}.

(** ** The session and the world *)

(** The global [debugger_state] dictionary.  Its five keys are fixed; [None]
    is Python's [None]. *)
Record DebuggerState := mkState {
  st_debugger : option SBDebugger;
  st_interpreter : option SBCommandInterpreter;
  st_target : option SBTarget;
  st_filename : option string;
  st_arch : option string
}.

(** The module-level initial value of [debugger_state]. *)
Definition initial_state : DebuggerState :=
  {| st_debugger := None; st_interpreter := None; st_target := None;
     st_filename := None; st_arch := None |}.

Record World := mkWorld {
  engine : Engine;
  engine_calls : list EngineCall;
  files : FileSystem;
  debugger_state : DebuggerState
}.

Definition set_engine (e : Engine) (w : World) : World :=
  {| engine := e; engine_calls := engine_calls w; files := files w;
     debugger_state := debugger_state w |}.

Definition log_call (c : EngineCall) (w : World) : World :=
  {| engine := engine w; engine_calls := engine_calls w ++ [c]; files := files w;
     debugger_state := debugger_state w |}.

Definition set_files (fs : FileSystem) (w : World) : World :=
  {| engine := engine w; engine_calls := engine_calls w; files := fs;
     debugger_state := debugger_state w |}.

Definition set_state (st : DebuggerState) (w : World) : World :=
  {| engine := engine w; engine_calls := engine_calls w; files := files w;
     debugger_state := st |}.

(** ** The monad of tool code: world passing with exceptions *)

Definition M (A : Type) : Type := World → Outcome A * World.

Definition ret {A} (a : A) : M A := λ w, (Return a, w).

Definition bind {A B} (m : M A) (k : A → M B) : M B :=
  λ w, match m w with
       | (Return a, w') => k a w'
       | (Raise e, w') => (Raise e, w')
       end.

#[local] Instance M_ret : MRet M := @ret.
#[local] Instance M_bind : MBind M := λ A B k m, bind m k.
#[local] Instance M_fmap : FMap M := λ A B f m, bind m (λ a, ret (f a)).

(** [try: body except Exception as e: handler(e)] *)
Definition try_except {A} (body : M A) (handler : PyExn → M A) : M A :=
  λ w, match body w with
       | (Return a, w') => (Return a, w')
       | (Raise e, w') => handler e w'
       end.

(** An [Outcome] computed without touching the world. *)
Definition lift {A} (o : Outcome A) : M A := λ w, (o, w).

(** An engine call that may change the engine; it is recorded. *)
Definition engine_call {A} (c : EngineCall) (f : Engine → A * Engine) : M A :=
  λ w, let '(a, e') := f (engine w) in (Return a, set_engine e' (log_call c w)).

(** A read-only query of the engine. *)
Definition engine_query {A} (f : Engine → A) : M A :=
  λ w, (Return (f (engine w)), w).

(** Reading and assigning [debugger_state]. *)
Definition get_state : M DebuggerState := λ w, (Return (debugger_state w), w).

Definition put_state (st : DebuggerState) : M unit := λ w, (Return tt, set_state st w).

(** [os.path.exists(path)] *)
Definition os_path_exists (path : string) : M bool :=
  λ w, (Return (path_exists (files w) path), w).

(** [with open(path, "w") as f: body f]: the file is closed when the block
    is left, by a return or by an exception. *)
Definition with_open_w {A} (path : string) (body : string → M A) : M A :=
  λ w, match fs_open_w (files w) path with
       | (Raise e, fs') => (Raise e, set_files fs' w)
       | (Return f, fs') =>
           let '(r, w') := body f (set_files fs' w) in
           (r, set_files (fs_close (files w') f) w')
       end.

(** Truthiness of the values stored under "debugger", "interpreter" and
    "target": [None] is false, an SB object is true when it is valid. *)
Definition debugger_bool (o : option SBDebugger) : bool :=
  match o with
  | Some d => SBDebugger_bool d
  | None => false
  end.

Definition interpreter_bool (o : option SBCommandInterpreter) : bool :=
  match o with
  | Some i => SBCommandInterpreter_bool i
  | None => false
  end.

Definition target_bool (o : option SBTarget) (e : Engine) : bool :=
  match o with
  | Some t => SBTarget_IsValid t e
  | None => false
  end.

(** ** initialize_debugger *)

Definition initialize_debugger (filename : string) (arch : string) : M string :=
  found ← os_path_exists filename;
  if negb found then
    ret ("Error: The file '" +:+ filename +:+ "' does not exist.")
  else
    debugger ← engine_call Call_Create SBDebugger_Create;
    if negb (SBDebugger_bool debugger) then
      ret "Error: Failed to create SBDebugger instance."
    else
      engine_call (Call_SetAsync false) (λ e, (tt, SetAsync debugger false e));;
      interpreter ← engine_call Call_GetCommandInterpreter (GetCommandInterpreter debugger);
      if negb (SBCommandInterpreter_bool interpreter) then
        engine_call Call_Terminate (λ e, (tt, SBDebugger_Terminate e));;
        ret "Error: Failed to get command interpreter."
      else
        '(target, error) ← engine_call (Call_CreateTarget filename arch)
                                       (CreateTarget debugger filename arch);
        valid ← engine_query (SBTarget_IsValid target);
        if negb valid || negb (Success error) then
          engine_call Call_Terminate (λ e, (tt, SBDebugger_Terminate e));;
          ret ("Error: Failed to create target: " +:+ fmt_opt_str (GetCString error))
        else
          (* the five assignments to debugger_state *)
          put_state {| st_debugger := Some debugger;
                       st_interpreter := Some interpreter;
                       st_target := Some target;
                       st_filename := Some filename;
                       st_arch := Some arch |};;
          ret ("Successfully initialized LLDB debugger for target: " +:+ filename
               +:+ " (arch: " +:+ arch +:+ ")").

(** ** run_lldb_command_func *)

Definition not_initialized_msg : string :=
  "LLDB not initialized. Call initialize_debugger() first.".

(** The loop that empties the debuggee's standard output, 1024 characters
    at a time.  The recursion is bounded by [fuel]; [read_stdout] starts it
    with more fuel than chunks can come (see [drain_stdout_fuel]). *)
Fixpoint drain_stdout (fuel : nat) (process : SBProcess) (output_read : string) : M string :=
  match fuel with
  | O => ret output_read
  | S fuel' =>
      stdout_chunk ← engine_call (Call_GetSTDOUT 1024) (GetSTDOUT process 1024);
      if negb (str_bool stdout_chunk) then ret output_read
      else drain_stdout fuel' process (output_read +:+ stdout_chunk)
  end.

Definition read_stdout (process : SBProcess) : M string :=
  λ w, drain_stdout (S (stdout_backlog process (engine w))) process EmptyString w.

Definition run_lldb_command_func (command : string) : M (gmap string PyVal) :=
  st ← get_state;
  target_ok ← engine_query (target_bool (st_target st));
  if negb (interpreter_bool (st_interpreter st)) || negb target_ok then
    ret (dict_of [("error", PyStr not_initialized_msg);
                  ("lldb_output", PyStr EmptyString);
                  ("program_stdout", PyStr EmptyString)])
  else
    interpreter ← lift (receiver (st_interpreter st));
    target ← lift (receiver (st_target st));
    result ← engine_call (Call_HandleCommand command) (HandleCommand interpreter command);
    let lldb_output :=
      if negb (Succeeded result) then GetOutput result +:+ GetError result
      else GetOutput result in
    process ← engine_query (GetProcess target);
    (* [process and process.IsValid()]: the truth value of an SBProcess is
       its validity *)
    process_ok ← engine_query (SBProcess_IsValid process);
    program_stdout ← (if process_ok && process_ok then read_stdout process
                      else ret EmptyString);
    ret (dict_of [("command", PyStr command);
                  ("lldb_output", PyStr lldb_output);
                  ("program_stdout", PyStr program_stdout)]).

(** ** run_lldb_command *)

Definition run_lldb_command (command : string) (output_filename : string)
  : M (gmap string PyVal) :=
  if negb (str_bool output_filename) then
    run_lldb_command_func command
  else
    try_except
      (with_open_w output_filename (λ f, run_lldb_command_func command))
      (λ e, ret (dict_of [("error", PyStr (exn_str e))])).

(** ** get_debugger_status *)

Definition state_names : gmap Z string :=
  dict_of [(eStateInvalid, "invalid");
           (eStateUnloaded, "unloaded");
           (eStateConnected, "connected");
           (eStateAttaching, "attaching");
           (eStateLaunching, "launching");
           (eStateStopped, "stopped");
           (eStateRunning, "running");
           (eStateStepping, "stepping");
           (eStateCrashed, "crashed");
           (eStateDetached, "detached");
           (eStateExited, "exited");
           (eStateSuspended, "suspended")].

Definition get_debugger_status : M (gmap string PyVal) :=
  st ← get_state;
  if negb (debugger_bool (st_debugger st)) then
    ret (dict_of [("initialized", PyBool false);
                  ("filename", PyNone);
                  ("arch", PyNone);
                  ("process_state", PyStr "No debugger initialized")])
  else
    let status :=
      dict_of [("initialized", PyBool true);
               ("filename", opt_str_val (st_filename st));
               ("arch", opt_str_val (st_arch st));
               ("process_state", PyStr "No process");
               ("process_id", PyNone)] in
    match st_target st with
    | Some target =>
        target_ok ← engine_query (SBTarget_IsValid target);
        if target_ok && target_ok then
          process ← engine_query (GetProcess target);
          process_ok ← engine_query (SBProcess_IsValid process);
          if process_ok && process_ok then
            state ← engine_query (GetState process);
            pid ← engine_query (GetProcessID process);
            ret (<["process_id" := PyInt pid]>
                   (<["process_state" := PyStr (dict_get state_names state "unknown")]> status))
          else ret status
        else ret status
    | None => ret status
    end.

(** ** terminate_debugger *)

Definition terminate_debugger : M string :=
  st ← get_state;
  if debugger_bool (st_debugger st) then
    engine_call Call_Terminate (λ e, (tt, SBDebugger_Terminate e));;
    put_state {| st_debugger := None;
                 st_interpreter := None;
                 st_target := None;
                 st_filename := None;
                 st_arch := None |};;
    ret "LLDB debugger session terminated successfully."
  else
    ret "No active debugger session to terminate.".

(** ** set_breakpoint *)

(** The breakpoint translator: the command [set_breakpoint] builds from
    [location] and [condition] before it runs it. *)
Definition breakpoint_command (location condition : string) : Outcome string :=
  cmd ← (if str_in ":" location then
           file ← list_index (str_split colon location) 0;
           line ← list_index (str_split colon location) 1;
           mret ("breakpoint set --file " +:+ file +:+ " --line " +:+ line)
         else if startswith location "0x" then
           mret ("breakpoint set --address " +:+ location)
         else
           mret ("breakpoint set --name " +:+ location));
  mret (if str_bool condition then cmd +:+ " --condition '" +:+ condition +:+ "'"
        else cmd).

Definition set_breakpoint (location : string) (condition : string)
  : M (gmap string PyVal) :=
  st ← get_state;
  if negb (interpreter_bool (st_interpreter st)) then
    ret (dict_of [("success", PyBool false);
                  ("message", PyStr not_initialized_msg);
                  ("lldb_output", PyStr EmptyString)])
  else
    cmd ← lift (breakpoint_command location condition);
    result ← run_lldb_command_func cmd;
    found ← lift (val_contains "Breakpoint" (dict_get result "lldb_output" (PyStr EmptyString)));
    let success := found && negb (dict_has result "error") in
    ret (dict_of [("success", PyBool success);
                  ("message", PyStr (if success then "Breakpoint set at " +:+ location
                                     else "Failed to set breakpoint"));
                  ("lldb_output", dict_get result "lldb_output" (PyStr EmptyString));
                  ("condition", PyStr (if str_bool condition then condition else "None"))]).

(** ** list_breakpoints *)

Definition list_breakpoints : M (gmap string PyVal) :=
  result ← run_lldb_command_func "breakpoint list";
  ret (dict_of [("lldb_output", dict_get result "lldb_output" (PyStr EmptyString));
                ("program_stdout", dict_get result "program_stdout" (PyStr EmptyString))]).

(** ** The tool functions, before decoration *)

Inductive ToolCall :=
  | Tool_initialize_debugger (filename arch : string)
  | Tool_run_lldb_command (command output_filename : string)
  | Tool_get_debugger_status
  | Tool_terminate_debugger
  | Tool_set_breakpoint (location condition : string)
  | Tool_list_breakpoints.

(** What a tool hands back: a message or a dictionary. *)
Inductive ToolResult :=
  | ResStr (s : string)
  | ResDict (d : gmap string PyVal).

(** The function each tool name is bound to before [log_tool_call] wraps
    it. *)
Definition tool_body (c : ToolCall) : M ToolResult :=
  match c with
  | Tool_initialize_debugger filename arch => ResStr <$> initialize_debugger filename arch
  | Tool_run_lldb_command command output_filename =>
      ResDict <$> run_lldb_command command output_filename
  | Tool_get_debugger_status => ResDict <$> get_debugger_status
  | Tool_terminate_debugger => ResStr <$> terminate_debugger
  | Tool_set_breakpoint location condition => ResDict <$> set_breakpoint location condition
  | Tool_list_breakpoints => ResDict <$> list_breakpoints
  end.

(** ** Session states *)

(** Uninitialized: the module-level value of [debugger_state], which is also
    what [terminate_debugger] stores. *)
Definition uninitialized (st : DebuggerState) : bool :=
  match st with
  | {| st_debugger := None; st_interpreter := None; st_target := None;
       st_filename := None; st_arch := None |} => true
  | _ => false
  end.

(** Initialized: what a successful [initialize_debugger] stores, all five
    entries set, the debugger and the interpreter valid objects. *)
Definition initialized (st : DebuggerState) : bool :=
  match st with
  | {| st_debugger := Some d; st_interpreter := Some i; st_target := Some _;
       st_filename := Some _; st_arch := Some _ |} =>
      SBDebugger_bool d && SBCommandInterpreter_bool i
  | _ => false
  end.

(** The interpreter handle and the target handle are both non-null. *)
Definition handles_set (st : DebuggerState) : bool :=
  bool_decide (is_Some (st_interpreter st)) && bool_decide (is_Some (st_target st)).

(** The session invariant: the handles are set exactly in the Initialized
    state. *)
Definition session_invariant (st : DebuggerState) : Prop :=
  handles_set st = true ↔ initialized st = true.

(** The target of the session is valid and has a valid process. *)
Definition has_valid_process (w : World) : bool :=
  match st_target (debugger_state w) with
  | Some target =>
      SBTarget_IsValid target (engine w)
      && SBProcess_IsValid (GetProcess target (engine w)) (engine w)
  | None => false
  end.

(** The message of a successful [initialize_debugger]. *)
Definition initialized_msg (filename arch : string) : string :=
  "Successfully initialized LLDB debugger for target: " +:+ filename
  +:+ " (arch: " +:+ arch +:+ ")".

(** The process states the status reporter names. *)
Definition recognized_states : list Z :=
  [eStateInvalid; eStateUnloaded; eStateConnected; eStateAttaching;
   eStateLaunching; eStateStopped; eStateRunning; eStateStepping;
   eStateCrashed; eStateDetached; eStateExited; eStateSuspended].

End Server.

(** ** Worlds of the small engine *)

(** Before any tool call. *)
Definition toy_world : World (L := Toy.toy_lldb) :=
  @mkWorld Toy.toy_lldb Toy.toy_engine [] Toy.toy_files (initial_state (L := Toy.toy_lldb)).

(** After a successful [initialize_debugger]. *)
Definition toy_session : World (L := Toy.toy_lldb) :=
  (initialize_debugger "/bin/ls" "x86_64" toy_world).2.

(** After [run] in that session: a stopped process. *)
Definition toy_running : World (L := Toy.toy_lldb) :=
  (run_lldb_command "run" EmptyString toy_session).2.

(** ** The vocabulary of the status reporter *)


(** ** Results of a call on an uninitialized session *)






(** ** The breakpoint translator in the spec's words *)

(** [s] contains the character [c]. *)
Fixpoint has_char (c : ascii) (s : string) : bool :=
  match s with
  | EmptyString => false
  | String c' s' => Ascii.eqb c' c || has_char c s'
  end.

(** The clause appended for a non-empty condition. *)
Definition condition_clause (condition : string) : string :=
  if str_bool condition then " --condition '" +:+ condition +:+ "'"
  else EmptyString.

(** The by-file-line rule as the spec words it: the file is what precedes
    the first colon, the line is everything after that colon. *)
Definition file_line_rule (location condition : string) : Prop :=
  ∀ file rest,
    location = file +:+ ":" +:+ rest →
    has_char colon file = false →
    breakpoint_command location condition
    = Return ("breakpoint set --file " +:+ file +:+ " --line " +:+ rest
              +:+ condition_clause condition).

(** ** The fields of a status record *)

(** The fields every status record has. *)
Definition status_fields : list string :=
  ["initialized"; "filename"; "arch"; "process_state"].

(** The fields the spec lists for a status record. *)
Definition listed_status_fields : list string :=
  ["initialized"; "filename"; "arch"; "process_state"; "process_id"].

Definition has_fields (d : gmap string PyVal) (fields : list string) : Prop :=
  Forall (λ k, is_Some (d !! k)) fields.

(** ** What the caller sees of a command *)

(** The interpreter text of a command: its output, with the error text
    appended when the interpreter reports failure. *)
Definition command_text (result : SBCommandReturnObject) : string :=
  if negb (Succeeded result) then GetOutput result +:+ GetError result
  else GetOutput result.

(** [open(path, "w")] would succeed. *)
Definition can_open_w (fs : FileSystem) (path : string) : bool :=
  match fs_entries fs !! path with
  | Some Directory => false
  | _ => match fs_write_error fs path with
         | Some _ => false
         | None => true
         end
  end.

(** The names of [state_names], in the order of [recognized_states]. *)
Definition process_state_names : list string :=
  ["invalid"; "unloaded"; "connected"; "attaching"; "launching"; "stopped";
   "running"; "stepping"; "crashed"; "detached"; "exited"; "suspended"].

(** A session of the small engine whose stored target is no longer valid. *)
Definition toy_stale : World (L := Toy.toy_lldb) :=
  set_state (L := Toy.toy_lldb)
    (@mkState Toy.toy_lldb (Some tt) (Some tt) (Some false)
       (Some "/bin/ls") (Some "x86_64"))
    toy_world.

(** ** log_tool_call *)

(** A Python [str] as the logger handles it: its code points.  The program
    texts of this file are ASCII, one code point per character. *)
Definition code_points (s : string) : list N :=
  N_of_ascii <$> list_ascii_of_string s.

(** What [log_tool_call] uses of Python and of rich. *)
Class Logger := {
  (** [f"{args}"] and [f"{kwargs}"] for the arguments of a call, as the
      transport passes them *)
  repr_args : ToolCall → list N;
  repr_kwargs : ToolCall → list N;
  (** [str(result)] *)
  str_result : ToolResult → list N;
  (** the message of the MarkupError rich raises when asked to print a
      text, if it raises one *)
  markup_error : list N → option string
}.

(** [func.__name__] *)
Definition func_name (c : ToolCall) : string :=
  match c with
  | Tool_initialize_debugger _ _ => "initialize_debugger"
  | Tool_run_lldb_command _ _ => "run_lldb_command"
  | Tool_get_debugger_status => "get_debugger_status"
  | Tool_terminate_debugger => "terminate_debugger"
  | Tool_set_breakpoint _ _ => "set_breakpoint"
  | Tool_list_breakpoints => "list_breakpoints"
  end.

(** The truncation of [str(result)]: [len] and the slice count code
    points. *)
Definition log_output_str (output_str : list N) : list N :=
  if 200 <? List.length output_str then take 197 output_str ++ code_points "..."
  else output_str.

Section Logging.
Context `{L : Lldb} `{G : Logger}.

(** The world with the console: what has been printed so far. *)
Record Logged := mkLogged {
  world : World;
  console : list (list N)
}.

(** [console.print(renderable)] *)
Definition console_print (renderable : list N) (lw : Logged) : Outcome unit * Logged :=
  match markup_error renderable with
  | Some msg => (Raise (MarkupError msg), lw)
  | None => (Return tt, {| world := world lw; console := console lw ++ [renderable] |})
  end.

(** The two lines of a call. *)
Definition input_line (name : string) (args kwargs : list N) : list N :=
  code_points "[bold blue]INPUT:[/bold blue] "
  ++ code_points "Tool '" ++ code_points name ++ code_points "' called with args="
  ++ args ++ code_points ", kwargs=" ++ kwargs.

Definition output_line (output_str : list N) : list N :=
  code_points "[bold green]OUTPUT:[/bold green] " ++ log_output_str output_str.

(** The wrapper [log_tool_call] gives for [func]. *)
Definition log_tool_call {A} (name : string) (args kwargs : list N)
    (to_str : A → list N) (func : M A) : Logged → Outcome A * Logged :=
  λ lw,
    match console_print (input_line name args kwargs) lw with
    | (Raise e, lw1) => (Raise e, lw1)
    | (Return _, lw1) =>
        match func (world lw1) with
        | (Raise e, w2) => (Raise e, {| world := w2; console := console lw1 |})
        | (Return result, w2) =>
            match console_print (output_line (to_str result))
                    {| world := w2; console := console lw1 |} with
            | (Raise e, lw3) => (Raise e, lw3)
            | (Return _, lw3) => (Return result, lw3)
            end
        end
    end.

(** A registered tool: the function body under [log_tool_call]. *)
Definition run_tool (c : ToolCall) : Logged → Outcome ToolResult * Logged :=
  log_tool_call (func_name c) (repr_args c) (repr_kwargs c) str_result (tool_body c).

(** The line printed before the call and the line printed for a result. *)
Definition call_line (c : ToolCall) : list N :=
  input_line (func_name c) (repr_args c) (repr_kwargs c).

Definition result_line (r : ToolResult) : list N :=
  output_line (str_result r).

(** Rich accepts both lines of a call made in world [w]. *)
Definition logs_accepted (c : ToolCall) (w : World) : bool :=
  match markup_error (call_line c) with
  | Some _ => false
  | None =>
      match tool_body c w with
      | (Return r, _) =>
          match markup_error (result_line r) with
          | Some _ => false
          | None => true
          end
      | (Raise _, _) => true
      end
  end.

End Logging.

(** ** A small logger

    Arguments are passed by keyword and the texts are quoted without
    escapes; a dictionary prints its entries in the order of their keys.
    The console rejects a text that holds the closing tag [/]: none of the
    texts the logger builds has a tag open where the caller's text stands. *)
Module ToyLog.

Definition quoted (s : string) : string := "'" +:+ s +:+ "'".

Definition toy_kwargs (c : ToolCall) : string :=
  match c with
  | Tool_initialize_debugger filename arch =>
      "{'filename': " +:+ quoted filename +:+ ", 'arch': " +:+ quoted arch +:+ "}"
  | Tool_run_lldb_command command output_filename =>
      "{'command': " +:+ quoted command +:+ ", 'output_filename': "
      +:+ quoted output_filename +:+ "}"
  | Tool_set_breakpoint location condition =>
      "{'location': " +:+ quoted location +:+ ", 'condition': "
      +:+ quoted condition +:+ "}"
  | Tool_get_debugger_status | Tool_terminate_debugger | Tool_list_breakpoints => "{}"
  end.

Definition toy_val (v : PyVal) : string :=
  match v with
  | PyNone => "None"
  | PyBool true => "True"
  | PyBool false => "False"
  | PyInt z => pretty z
  | PyStr s => quoted s
  end.

Definition toy_str (r : ToolResult) : string :=
  match r with
  | ResStr s => s
  | ResDict d =>
      "{" +:+ String.concat ", "
                ((λ kv, quoted kv.1 +:+ ": " +:+ toy_val kv.2) <$> map_to_list d)
      +:+ "}"
  end.

Fixpoint starts_with (p l : list N) : bool :=
  match p, l with
  | [], _ => true
  | x :: p', y :: l' => (x =? y)%N && starts_with p' l'
  | _ :: _, [] => false
  end.

Fixpoint contains (p l : list N) : bool :=
  starts_with p l ||
  match l with
  | [] => false
  | _ :: l' => contains p l'
  end.

Definition toy_markup_error (text : list N) : option string :=
  if contains (code_points "[/]") text
  then Some "closing tag '[/]' has nothing to close"
  else None.

#[export] Instance toy_logger : Logger := {|
  repr_args := λ _, code_points "()";
  repr_kwargs := λ c, code_points (toy_kwargs c);
  str_result := λ r, code_points (toy_str r);
  markup_error := toy_markup_error
|}.

End ToyLog.

(** A world of the small engine with nothing printed yet. *)
Definition toy_logged (w : World (L := Toy.toy_lldb)) : Logged (L := Toy.toy_lldb) :=
  @mkLogged Toy.toy_lldb w [].

(** * Properties *)

Section Properties.
Context `{L : Lldb}.

Implicit Types (w : World) (st : DebuggerState).

(** Unfolding one layer of tool code. *)
Ltac unfold_m :=
  unfold mbind, mret, fmap, M_bind, M_ret, M_fmap, bind, ret, lift,
    get_state, put_state, engine_call, engine_query, os_path_exists in *.

(** *** Reading a dictionary literal *)

Lemma dict_of_snoc {K} `{Countable K} {V} (items : list (K * V)) k v :
  dict_of (items ++ [(k, v)]) = <[k := v]> (dict_of items).
Proof. unfold dict_of. by rewrite foldl_app. Qed.



(** *** The session states *)

Lemma uninitialized_initial st : uninitialized st = true → st = initial_state.
Proof. destruct st as [[?|] [?|] [?|] [?|] [?|]]; simpl; done. Qed.

Lemma initialized_debugger_bool st :
  initialized st = true → debugger_bool (st_debugger st) = true.
Proof.
  destruct st as [[?|] [?|] [?|] [?|] [?|]]; simpl; try done.
  by intros [? _]%andb_true_iff.
Qed.

Lemma initialized_interpreter_bool st :
  initialized st = true → interpreter_bool (st_interpreter st) = true.
Proof.
  destruct st as [[?|] [?|] [?|] [?|] [?|]]; simpl; try done.
  by intros [_ ?]%andb_true_iff.
Qed.

(** *** The drain loop *)

(** The loop returns, and touches neither the session nor the files. *)
Lemma drain_stdout_returns fuel p out w :
  ∃ s w', drain_stdout fuel p out w = (Return s, w')
          ∧ debugger_state w' = debugger_state w ∧ files w' = files w.
Proof.
  revert out w. induction fuel as [|fuel IH]; intros out w; simpl.
  - by exists out, w.
  - unfold_m. destruct (GetSTDOUT p 1024 (engine w)) as [chunk e'].
    destruct (str_bool chunk); simpl.
    + destruct (IH (out +:+ chunk) (set_engine e' (log_call (Call_GetSTDOUT 1024) w)))
        as (s & w' & -> & Hst & Hfs).
      by exists s, w'.
    + by eexists _, _.
Qed.

(** With more fuel than the backlog the loop never stops for lack of fuel:
    its result does not depend on how much more there is. *)
Lemma drain_stdout_fuel fuel1 fuel2 p out w :
  stdout_backlog p (engine w) < fuel1 →
  stdout_backlog p (engine w) < fuel2 →
  drain_stdout fuel1 p out w = drain_stdout fuel2 p out w.
Proof.
  revert fuel2 out w. induction fuel1 as [|fuel1 IH]; intros [|fuel2] out w H1 H2;
    try lia.
  simpl. unfold_m.
  pose proof (GetSTDOUT_drains p 1024 (engine w)) as Hdrain.
  destruct (GetSTDOUT p 1024 (engine w)) as [chunk e'].
  destruct chunk as [|c chunk]; simpl; [done|].
  simpl in Hdrain. apply IH; simpl.
  - specialize (Hdrain ltac:(done)). lia.
  - specialize (Hdrain ltac:(done)). lia.
Qed.

Lemma drain_stdout_S fuel p out w :
  drain_stdout (S fuel) p out w
  = let '(chunk, e') := GetSTDOUT p 1024 (engine w) in
    let w' := set_engine e' (log_call (Call_GetSTDOUT 1024) w) in
    if str_bool chunk then drain_stdout fuel p (out +:+ chunk) w'
    else (Return out, w').
Proof.
  simpl. unfold_m. destruct (GetSTDOUT p 1024 (engine w)) as [chunk e'].
  by destruct (str_bool chunk).
Qed.

(** [read_stdout] is the source's [while True] loop: read a chunk, stop on
    an empty one, otherwise append it and go round again. *)
Lemma read_stdout_loop p out w :
  drain_stdout (S (stdout_backlog p (engine w))) p out w
  = let '(chunk, e') := GetSTDOUT p 1024 (engine w) in
    let w' := set_engine e' (log_call (Call_GetSTDOUT 1024) w) in
    if str_bool chunk
    then drain_stdout (S (stdout_backlog p (engine w'))) p (out +:+ chunk) w'
    else (Return out, w').
Proof.
  rewrite drain_stdout_S.
  pose proof (GetSTDOUT_drains p 1024 (engine w)) as Hdrain.
  destruct (GetSTDOUT p 1024 (engine w)) as [chunk e'].
  destruct chunk as [|c chunk]; [done|].
  cbn [str_bool]. cbn [fst snd] in Hdrain. specialize (Hdrain ltac:(done)).
  apply drain_stdout_fuel; cbn [engine set_engine]; lia.
Qed.

(** *** run_lldb_command_func always returns *)

Lemma run_lldb_command_func_returns command w :
  ∃ result w',
    run_lldb_command_func command w = (Return result, w')
    ∧ debugger_state w' = debugger_state w
    ∧ files w' = files w
    ∧ (∃ out, result !! "lldb_output" = Some (PyStr out))
    ∧ (∃ out, result !! "program_stdout" = Some (PyStr out)).
Proof.
  unfold run_lldb_command_func. unfold_m.
  destruct (st_interpreter (debugger_state w)) as [interpreter|];
    [destruct (st_target (debugger_state w)) as [target|]|]; cbn.
  2,3: rewrite ?orb_true_r; eexists _, _; split_and!; try done; by eexists.
  destruct (negb _ || negb _).
  { eexists _, _; split_and!; try done; by eexists. }
  destruct (HandleCommand interpreter command (engine w)) as [result e1].
  cbn [engine set_engine log_call].
  destruct (SBProcess_IsValid _ _); cbn [andb].
  - unfold read_stdout.
    match goal with |- context [drain_stdout ?f ?p ?o ?w0] =>
      destruct (drain_stdout_returns f p o w0) as (s & w' & -> & Hst & Hfs) end.
    eexists _, w'; split_and!; try done; by eexists.
  - eexists _, _; split_and!; try done; by eexists.
Qed.

Lemma run_lldb_command_func_uninitialized command w :
  uninitialized (debugger_state w) = true →
  run_lldb_command_func command w
  = (Return (dict_of [("error", PyStr not_initialized_msg);
                      ("lldb_output", PyStr EmptyString);
                      ("program_stdout", PyStr EmptyString)]), w).
Proof.
  intros Hst%uninitialized_initial. unfold run_lldb_command_func. unfold_m.
  by rewrite Hst.
Qed.

(** *** initialize_debugger on a missing file *)

(** The body of [initialize_debugger] on a missing file: it returns the
    "does not exist" message and the world is untouched. *)
Lemma initialize_debugger_body_missing_file filename arch w :
  path_exists (files w) filename = false →
  initialize_debugger filename arch w
  = (Return ("Error: The file '" +:+ filename +:+ "' does not exist."), w).
Proof.
  intros Hmissing. unfold initialize_debugger. unfold_m. by rewrite Hmissing.
Qed.

(** *** Tools on an uninitialized session *)


(** *** The breakpoint translator *)

Lemma prefix_empty s : String.prefix EmptyString s = true.
Proof. by destruct s. Qed.

Lemma append_cons c s1 s2 : String c s1 +:+ s2 = String c (s1 +:+ s2).
Proof. reflexivity. Qed.

Lemma append_empty_r s : s +:+ EmptyString = s.
Proof. induction s as [|c s IH]; [done|]. by rewrite append_cons, IH. Qed.

Lemma append_assoc s1 s2 s3 : (s1 +:+ s2) +:+ s3 = s1 +:+ (s2 +:+ s3).
Proof. induction s1 as [|c s1 IH]; [done|]. by rewrite !append_cons, IH. Qed.

Lemma str_in_colon s : str_in ":" s = has_char colon s.
Proof.
  induction s as [|c s IH]; [done|].
  cbn [str_in has_char String.prefix]. rewrite IH, prefix_empty.
  destruct (ascii_dec ":" c) as [<-|Hne]; [done|].
  destruct (Ascii.eqb_spec c colon) as [->|_]; done.
Qed.

(** Splitting [file:line...] at the colons: the first two parts. *)
Lemma str_split_no_colon s :
  has_char colon s = false → str_split colon s = [s].
Proof.
  induction s as [|c s IH]; [done|]. cbn [has_char str_split].
  destruct (Ascii.eqb c colon); [done|]. intros Hs. by rewrite IH.
Qed.

Lemma str_split_first file rest :
  has_char colon file = false →
  str_split colon (file +:+ ":" +:+ rest) = file :: str_split colon rest.
Proof.
  induction file as [|c file IH]; [done|]. cbn [has_char]. intros Hfile.
  rewrite append_cons. cbn [str_split]. destruct (Ascii.eqb c colon); [done|]. by rewrite IH.
Qed.

Lemma str_split_second line rest :
  has_char colon line = false →
  rest = EmptyString ∨ String.prefix ":" rest = true →
  ∃ parts, str_split colon (line +:+ rest) = line :: parts.
Proof.
  intros Hline [->|Hrest].
  - rewrite append_empty_r, str_split_no_colon by done. by eexists.
  - destruct rest as [|c rest]; [done|]. cbn [String.prefix] in Hrest.
    destruct (ascii_dec ":" c) as [<-|]; [|done].
    change (String ":" rest) with (":" +:+ rest).
    rewrite str_split_first by done. by eexists.
Qed.

Lemma has_char_app c s1 s2 :
  has_char c (s1 +:+ s2) = has_char c s1 || has_char c s2.
Proof.
  induction s1 as [|c1 s1 IH]; [done|].
  rewrite append_cons. cbn [has_char]. by rewrite IH, orb_assoc.
Qed.

Lemma breakpoint_command_file_line file line rest condition :
  has_char colon file = false →
  has_char colon line = false →
  rest = EmptyString ∨ String.prefix ":" rest = true →
  breakpoint_command (file +:+ ":" +:+ line +:+ rest) condition
  = Return ("breakpoint set --file " +:+ file +:+ " --line " +:+ line
            +:+ condition_clause condition).
Proof.
  intros Hfile Hline Hrest. unfold breakpoint_command, condition_clause.
  rewrite str_in_colon, has_char_app, (has_char_app _ ":"), orb_true_r.
  rewrite str_split_first by done.
  destruct (str_split_second line rest Hline Hrest) as [parts ->].
  cbn. destruct (str_bool condition); cbn;
    by rewrite ?append_assoc, ?append_empty_r.
Qed.

Lemma breakpoint_command_no_colon location condition :
  has_char colon location = false →
  breakpoint_command location condition
  = Return ((if startswith location "0x"
             then "breakpoint set --address " +:+ location
             else "breakpoint set --name " +:+ location)
            +:+ condition_clause condition).
Proof.
  intros Hloc. unfold breakpoint_command, condition_clause.
  rewrite str_in_colon, Hloc.
  destruct (startswith location "0x"); cbn; destruct (str_bool condition); cbn;
    by rewrite ?append_assoc, ?append_empty_r.
Qed.

(** C3 (as amended): the translator's three cases, in their order.  A
    location [file:line] followed by nothing or by a further colon and any
    text gives the by-file-line command for [file] and [line]; a location
    with no colon that starts with 0x gives the by-address command; any other
    location with no colon gives the by-name command for the whole string.
    In every case a non-empty condition is appended as a condition clause. *)
Theorem breakpoint_command_cases location condition :
  (∀ file line rest,
      location = file +:+ ":" +:+ line +:+ rest →
      has_char colon file = false →
      has_char colon line = false →
      rest = EmptyString ∨ String.prefix ":" rest = true →
      breakpoint_command location condition
      = Return ("breakpoint set --file " +:+ file +:+ " --line " +:+ line
                +:+ condition_clause condition))
  ∧ (has_char colon location = false →
     startswith location "0x" = true →
     breakpoint_command location condition
     = Return ("breakpoint set --address " +:+ location +:+ condition_clause condition))
  ∧ (has_char colon location = false →
     startswith location "0x" = false →
     breakpoint_command location condition
     = Return ("breakpoint set --name " +:+ location +:+ condition_clause condition)).
Proof.
  split_and!.
  - intros file line rest -> Hfile Hline Hrest.
    by apply breakpoint_command_file_line.
  - intros Hloc Hx. by rewrite breakpoint_command_no_colon, Hx.
  - intros Hloc Hx. by rewrite breakpoint_command_no_colon, Hx.
Qed.

(** Every location falls under one of the three cases. *)
Lemma location_file_line location :
  has_char colon location = true →
  ∃ file line rest,
    location = file +:+ ":" +:+ line +:+ rest
    ∧ has_char colon file = false
    ∧ has_char colon line = false
    ∧ (rest = EmptyString ∨ String.prefix ":" rest = true).
Proof.
  assert (Hcut : ∀ s, ∃ line rest,
             s = line +:+ rest ∧ has_char colon line = false
             ∧ (rest = EmptyString ∨ String.prefix ":" rest = true)).
  { induction s as [|c s (line & rest & -> & Hline & Hrest)].
    - exists EmptyString, EmptyString. by split_and!; [| |left].
    - destruct (Ascii.eqb_spec c colon) as [->|Hne].
      + exists EmptyString, (String colon (line +:+ rest)). split_and!; try done.
        right. cbn. by rewrite prefix_empty.
      + exists (String c line), rest. split_and!; try done.
        cbn. by apply Ascii.eqb_neq in Hne as ->. }
  induction location as [|c location IH]; [done|]. cbn [has_char].
  destruct (Ascii.eqb_spec c colon) as [->|Hne]; intros Hloc.
  - destruct (Hcut location) as (line & rest & -> & Hline & Hrest).
    by exists EmptyString, line, rest.
  - destruct (IH Hloc) as (file & line & rest & -> & Hfile & Hline & Hrest).
    exists (String c file), line, rest. split_and!; try done.
    cbn. by apply Ascii.eqb_neq in Hne as ->.
Qed.

Lemma breakpoint_command_returns location condition :
  ∃ cmd, breakpoint_command location condition = Return cmd.
Proof.
  destruct (has_char colon location) eqn:Hcolon.
  - destruct (location_file_line location Hcolon)
      as (file & line & rest & -> & Hf & Hl & Hr).
    eexists. by apply breakpoint_command_file_line.
  - eexists. by apply breakpoint_command_no_colon.
Qed.

(** *** terminate_debugger *)

Lemma terminate_debugger_live w :
  debugger_bool (st_debugger (debugger_state w)) = true →
  terminate_debugger w
  = (Return "LLDB debugger session terminated successfully.",
     set_state initial_state
       (set_engine (SBDebugger_Terminate (engine w)) (log_call Call_Terminate w))).
Proof. intros Hd. unfold terminate_debugger. unfold_m. by rewrite Hd. Qed.

Lemma terminate_debugger_idle w :
  debugger_bool (st_debugger (debugger_state w)) = false →
  terminate_debugger w = (Return "No active debugger session to terminate.", w).
Proof. intros Hd. unfold terminate_debugger. unfold_m. by rewrite Hd. Qed.

(** C6: on an Initialized session [terminate_debugger] releases the engine,
    resets all five entries of the session and confirms; on an Uninitialized
    session it changes nothing and returns the no-op message; and whatever
    the session was, a second call right after the first returns the no-op
    message and changes nothing. *)
Theorem terminate_debugger_idempotent w :
  (initialized (debugger_state w) = true →
   terminate_debugger w
   = (Return "LLDB debugger session terminated successfully.",
      set_state initial_state
        (set_engine (SBDebugger_Terminate (engine w)) (log_call Call_Terminate w))))
  ∧ (uninitialized (debugger_state w) = true →
     terminate_debugger w = (Return "No active debugger session to terminate.", w))
  ∧ terminate_debugger (terminate_debugger w).2
    = (Return "No active debugger session to terminate.", (terminate_debugger w).2).
Proof.
  split_and!.
  - intros Hinit%initialized_debugger_bool. by apply terminate_debugger_live.
  - intros Hst%uninitialized_initial. apply terminate_debugger_idle. by rewrite Hst.
  - destruct (debugger_bool (st_debugger (debugger_state w))) eqn:Hd.
    + rewrite (terminate_debugger_live w Hd). by apply terminate_debugger_idle.
    + rewrite (terminate_debugger_idle w Hd). by apply terminate_debugger_idle.
Qed.

(** *** The session invariant *)

(** [initialize_debugger] either stores a complete session and reports
    success, or reports an error and leaves the session as it was. *)
Lemma initialize_debugger_outcome filename arch w :
  ∃ msg w',
    initialize_debugger filename arch w = (Return msg, w')
    ∧ ((msg = initialized_msg filename arch
        ∧ initialized (debugger_state w') = true
        ∧ handles_set (debugger_state w') = true
        ∧ st_filename (debugger_state w') = Some filename
        ∧ st_arch (debugger_state w') = Some arch)
       ∨ (String.prefix "Error: " msg = true
          ∧ debugger_state w' = debugger_state w)).
Proof.
  unfold initialize_debugger. unfold_m.
  destruct (path_exists (files w) filename); cbn [negb].
  2: { eexists _, _. split; [done|]. by right. }
  destruct (SBDebugger_Create (engine w)) as [debugger e1].
  destruct (SBDebugger_bool debugger) eqn:Hd; cbn [negb].
  2: { eexists _, _. split; [done|]. by right. }
  cbn [engine set_engine log_call].
  destruct (GetCommandInterpreter debugger (SetAsync debugger false e1))
    as [interpreter e2].
  destruct (SBCommandInterpreter_bool interpreter) eqn:Hi; cbn [negb].
  2: { eexists _, _. split; [done|]. by right. }
  cbn [engine set_engine log_call].
  destruct (CreateTarget debugger filename arch e2) as [[target error] e3].
  cbn [engine set_engine log_call].
  destruct (negb (SBTarget_IsValid target e3) || negb (Success error)).
  { eexists _, _. split; [done|]. by right. }
  eexists _, _. split; [done|]. left.
  cbn. rewrite Hd, Hi. by split_and!.
Qed.

(** The tools that neither initialize nor terminate return and leave the
    session alone. *)
Lemma run_lldb_command_returns command output_filename w :
  ∃ d w', run_lldb_command command output_filename w = (Return d, w')
          ∧ debugger_state w' = debugger_state w.
Proof.
  unfold run_lldb_command. destruct (str_bool output_filename); cbn [negb].
  - unfold try_except, with_open_w.
    destruct (fs_open_w (files w) output_filename) as [[f|e] fs'].
    + destruct (run_lldb_command_func_returns command (set_files fs' w))
        as (d & w' & -> & Hst & _).
      by eexists _, _.
    + by eexists _, _.
  - destruct (run_lldb_command_func_returns command w) as (d & w' & -> & Hst & _).
    by eexists _, _.
Qed.

Lemma get_debugger_status_pure w :
  ∃ d, get_debugger_status w = (Return d, w).
Proof.
  unfold get_debugger_status. unfold_m.
  destruct (debugger_bool _); cbn [negb]; [|by eexists].
  destruct (st_target (debugger_state w)) as [target|]; [|by eexists].
  destruct (SBTarget_IsValid target (engine w)); cbn [andb]; [|by eexists].
  destruct (SBProcess_IsValid _ _); cbn [andb]; by eexists.
Qed.

Lemma set_breakpoint_returns location condition w :
  ∃ d w', set_breakpoint location condition w = (Return d, w')
          ∧ debugger_state w' = debugger_state w.
Proof.
  unfold set_breakpoint. unfold_m.
  destruct (interpreter_bool _); cbn [negb]; [|by eexists _, _].
  destruct (breakpoint_command_returns location condition) as [cmd ->].
  destruct (run_lldb_command_func_returns cmd w)
    as (result & w' & -> & Hst & _ & [out Hout] & _).
  unfold dict_get. rewrite Hout. cbn. by eexists _, _.
Qed.

Lemma list_breakpoints_returns w :
  ∃ d w', list_breakpoints w = (Return d, w') ∧ debugger_state w' = debugger_state w.
Proof.
  unfold list_breakpoints. unfold_m.
  destruct (run_lldb_command_func_returns "breakpoint list" w)
    as (result & w' & -> & Hst & _).
  by eexists _, _.
Qed.

(** No tool raises, whatever the session; and a call leaves the session as
    it was, or stores a complete session, or resets a live one. *)
Lemma tool_body_session (c : ToolCall) w :
  ∃ r w',
    tool_body c w = (Return r, w')
    ∧ (debugger_state w' = debugger_state w
       ∨ (initialized (debugger_state w') = true
          ∧ handles_set (debugger_state w') = true)
       ∨ (debugger_bool (st_debugger (debugger_state w)) = true
          ∧ debugger_state w' = initial_state)).
Proof.
  destruct c as [filename arch|command output_filename| | |location condition|];
    cbn [tool_body]; unfold fmap, M_fmap, bind, ret.
  - destruct (initialize_debugger_outcome filename arch w)
      as (msg & w' & -> & [(_ & Hi & Hh & _)|[_ Hst]]); eexists _, _; eauto.
  - destruct (run_lldb_command_returns command output_filename w) as (d & w' & -> & Hst).
    eexists _, _; eauto.
  - destruct (get_debugger_status_pure w) as (d & ->). eexists _, _; eauto.
  - destruct (debugger_bool (st_debugger (debugger_state w))) eqn:Hd.
    + rewrite (terminate_debugger_live w Hd). eexists _, _; eauto.
    + rewrite (terminate_debugger_idle w Hd). eexists _, _; eauto.
  - destruct (set_breakpoint_returns location condition w) as (d & w' & -> & Hst).
    eexists _, _; eauto.
  - destruct (list_breakpoints_returns w) as (d & w' & -> & Hst). eexists _, _; eauto.
Qed.

(** X4: a failure after the engine instance was created releases the
    engine: the last engine call of the failed [initialize_debugger] is
    [Terminate]. *)
Lemma initialize_debugger_rollback filename arch w :
  path_exists (files w) filename = true →
  SBDebugger_bool (SBDebugger_Create (engine w)).1 = true →
  (initialize_debugger filename arch w).1 ≠ Return (initialized_msg filename arch) →
  last (engine_calls (initialize_debugger filename arch w).2) = Some Call_Terminate.
Proof.
  intros Hfound Hd. unfold initialize_debugger. unfold_m. rewrite Hfound. cbn [negb].
  destruct (SBDebugger_Create (engine w)) as [debugger e1]. cbn [fst] in Hd.
  rewrite Hd. cbn [negb engine set_engine log_call].
  destruct (GetCommandInterpreter debugger (SetAsync debugger false e1))
    as [interpreter e2].
  destruct (SBCommandInterpreter_bool interpreter); cbn [negb].
  2: { intros _. cbn. by rewrite last_snoc. }
  cbn [engine set_engine log_call].
  destruct (CreateTarget debugger filename arch e2) as [[target error] e3].
  cbn [engine set_engine log_call].
  destruct (negb (SBTarget_IsValid target e3) || negb (Success error)).
  - intros _. cbn. by rewrite last_snoc.
  - intros Hne. by destruct Hne.
Qed.

(** The function bodies preserve the session invariant and keep a session
    Initialized or Uninitialized; a body of [initialize_debugger] that does
    not report success leaves [debugger_state] as it was. *)
Lemma tool_body_preserves_invariant w :
  (∀ c : ToolCall,
      session_invariant (debugger_state w) →
      session_invariant (debugger_state (tool_body c w).2))
  ∧ (∀ c : ToolCall,
        initialized (debugger_state w) = true ∨ uninitialized (debugger_state w) = true →
        initialized (debugger_state (tool_body c w).2) = true
        ∨ uninitialized (debugger_state (tool_body c w).2) = true)
  ∧ (∀ filename arch,
        (initialize_debugger filename arch w).1 ≠ Return (initialized_msg filename arch) →
        debugger_state (initialize_debugger filename arch w).2 = debugger_state w).
Proof.
  split_and!.
  - intros c Hinv.
    destruct (tool_body_session c w) as (r & w' & -> & [Hst|[[Hi Hh]|[_ Hst]]]);
      cbn [snd].
    + by rewrite Hst.
    + unfold session_invariant. by rewrite Hi, Hh.
    + by rewrite Hst.
  - intros c Hwf.
    destruct (tool_body_session c w) as (r & w' & -> & [Hst|[[Hi Hh]|[_ Hst]]]);
      cbn [snd].
    + by rewrite Hst.
    + by left.
    + right. by rewrite Hst.
  - intros filename arch.
    destruct (initialize_debugger_outcome filename arch w)
      as (msg & w' & -> & [(-> & _)|[_ Hst]]); cbn [fst snd]; done.
Qed.

(** *** get_debugger_status *)

Lemma get_debugger_status_uninitialized w :
  debugger_bool (st_debugger (debugger_state w)) = false →
  get_debugger_status w
  = (Return (dict_of [("initialized", PyBool false);
                      ("filename", PyNone);
                      ("arch", PyNone);
                      ("process_state", PyStr "No debugger initialized")]), w).
Proof. intros Hd. unfold get_debugger_status. unfold_m. by rewrite Hd. Qed.

Lemma get_debugger_status_no_process w :
  debugger_bool (st_debugger (debugger_state w)) = true →
  has_valid_process w = false →
  get_debugger_status w
  = (Return (dict_of [("initialized", PyBool true);
                      ("filename", opt_str_val (st_filename (debugger_state w)));
                      ("arch", opt_str_val (st_arch (debugger_state w)));
                      ("process_state", PyStr "No process");
                      ("process_id", PyNone)]), w).
Proof.
  intros Hd Hp. unfold get_debugger_status, has_valid_process in *. unfold_m.
  rewrite Hd. cbn [negb].
  destruct (st_target (debugger_state w)) as [target|]; [|done].
  destruct (SBTarget_IsValid target (engine w)); cbn [andb] in *; [|done].
  by rewrite Hp.
Qed.

Lemma get_debugger_status_process w target :
  debugger_bool (st_debugger (debugger_state w)) = true →
  st_target (debugger_state w) = Some target →
  has_valid_process w = true →
  get_debugger_status w
  = (Return
       (<["process_id" := PyInt (GetProcessID (GetProcess target (engine w)) (engine w))]>
          (<["process_state" :=
               PyStr (dict_get state_names
                        (GetState (GetProcess target (engine w)) (engine w)) "unknown")]>
             (dict_of [("initialized", PyBool true);
                       ("filename", opt_str_val (st_filename (debugger_state w)));
                       ("arch", opt_str_val (st_arch (debugger_state w)));
                       ("process_state", PyStr "No process");
                       ("process_id", PyNone)]))), w).
Proof.
  intros Hd Ht Hp. unfold get_debugger_status, has_valid_process in *. unfold_m.
  rewrite Hd, Ht in *. cbn [negb].
  apply andb_true_iff in Hp as [Hvalid Hprocess].
  rewrite Hvalid. cbn -[dict_of state_names]. by rewrite Hprocess.
Qed.

(** C7 (as amended): [get_debugger_status] changes nothing and returns a
    record with the fields initialized, filename, arch and process_state.
    On an Uninitialized session the record is exactly [initialized: False],
    null filename and arch and the state "No debugger initialized", with no
    process_id field.  On an Initialized session it has a process_id field
    too and reports [initialized: True] with the stored filename and arch;
    without a valid process the state is "No process" and process_id is
    null. *)
Theorem get_debugger_status_record w :
  ∃ d,
    get_debugger_status w = (Return d, w)
    ∧ has_fields d status_fields
    ∧ (uninitialized (debugger_state w) = true →
       d = dict_of [("initialized", PyBool false);
                    ("filename", PyNone);
                    ("arch", PyNone);
                    ("process_state", PyStr "No debugger initialized")]
       ∧ d !! "process_id" = None)
    ∧ (initialized (debugger_state w) = true →
       d !! "initialized" = Some (PyBool true)
       ∧ d !! "filename" = Some (opt_str_val (st_filename (debugger_state w)))
       ∧ d !! "arch" = Some (opt_str_val (st_arch (debugger_state w)))
       ∧ is_Some (d !! "process_id")
       ∧ (has_valid_process w = false →
          d !! "process_state" = Some (PyStr "No process")
          ∧ d !! "process_id" = Some PyNone)).
Proof.
  destruct (debugger_bool (st_debugger (debugger_state w))) eqn:Hd.
  - assert (Hun : uninitialized (debugger_state w) = true → False).
    { intros Hst%uninitialized_initial. by rewrite Hst in Hd. }
    destruct (has_valid_process w) eqn:Hp.
    + assert (∃ target, st_target (debugger_state w) = Some target) as [target Ht].
      { unfold has_valid_process in Hp. destruct (st_target _); [by eexists|done]. }
      rewrite (get_debugger_status_process w target Hd Ht Hp).
      eexists. split; [done|]. split_and!.
      * unfold has_fields, status_fields. repeat constructor; by eexists.
      * intros []%Hun.
      * intros _. split_and!; try done; by eexists.
    + rewrite (get_debugger_status_no_process w Hd Hp).
      eexists. split; [done|]. split_and!.
      * unfold has_fields, status_fields. repeat constructor; by eexists.
      * intros []%Hun.
      * intros _. split_and!; try done; by eexists.
  - rewrite (get_debugger_status_uninitialized w Hd).
    eexists. split; [done|]. split_and!.
    + unfold has_fields, status_fields. repeat constructor; by eexists.
    + done.
    + intros Hinit%initialized_debugger_bool. congruence.
Qed.


(** *** set_breakpoint *)

(** Past the not-initialized guard [set_breakpoint] runs the translated
    command and builds its record from the result. *)
Lemma set_breakpoint_run location condition w :
  interpreter_bool (st_interpreter (debugger_state w)) = true →
  ∃ cmd result w' output,
    breakpoint_command location condition = Return cmd
    ∧ run_lldb_command_func cmd w = (Return result, w')
    ∧ dict_get result "lldb_output" (PyStr EmptyString) = PyStr output
    ∧ set_breakpoint location condition w
      = (let success := str_in "Breakpoint" output && negb (dict_has result "error") in
         Return (dict_of [("success", PyBool success);
                          ("message", PyStr (if success
                                             then "Breakpoint set at " +:+ location
                                             else "Failed to set breakpoint"));
                          ("lldb_output", PyStr output);
                          ("condition", PyStr (if str_bool condition then condition
                                               else "None"))]), w').
Proof.
  intros Hi. unfold set_breakpoint. unfold_m. rewrite Hi. cbn [negb].
  destruct (breakpoint_command_returns location condition) as [cmd Hcmd].
  destruct (run_lldb_command_func_returns cmd w)
    as (result & w' & Hrun & _ & _ & [output Hout] & _).
  exists cmd, result, w', output. rewrite Hcmd, Hrun.
  unfold dict_get. rewrite Hout. by cbn.
Qed.

(** The body of [set_breakpoint] on an Initialized session: success is
    true exactly when the interpreter output of the run contains
    "Breakpoint" and the result has no "error" entry. *)
Lemma set_breakpoint_body_success location condition w :
  initialized (debugger_state w) = true →
  ∃ cmd result w' output d,
    breakpoint_command location condition = Return cmd
    ∧ run_lldb_command_func cmd w = (Return result, w')
    ∧ dict_get result "lldb_output" (PyStr EmptyString) = PyStr output
    ∧ set_breakpoint location condition w = (Return d, w')
    ∧ (d !! "success" = Some (PyBool true)
       ↔ str_in "Breakpoint" output = true ∧ dict_has result "error" = false)
    ∧ (d !! "success" = Some (PyBool true) →
       d !! "message" = Some (PyStr ("Breakpoint set at " +:+ location)))
    ∧ (d !! "success" ≠ Some (PyBool true) →
       d !! "success" = Some (PyBool false)
       ∧ d !! "message" = Some (PyStr "Failed to set breakpoint")).
Proof.
  intros Hi%initialized_interpreter_bool.
  destruct (set_breakpoint_run location condition w Hi)
    as (cmd & result & w' & output & Hcmd & Hrun & Hout & ->).
  exists cmd, result, w', output. eexists. split_and!; try done.
  - destruct (str_in "Breakpoint" output), (dict_has result "error");
      cbn; split; try done; by intros [? ?].
  - destruct (str_in "Breakpoint" output), (dict_has result "error"); cbn; done.
  - destruct (str_in "Breakpoint" output), (dict_has result "error"); cbn; done.
Qed.

(** The condition field of the record the body of [set_breakpoint]
    builds. *)
Lemma set_breakpoint_body_condition_field location condition w :
  ∃ d w',
    set_breakpoint location condition w = (Return d, w')
    ∧ (interpreter_bool (st_interpreter (debugger_state w)) = true →
       (condition ≠ EmptyString → d !! "condition" = Some (PyStr condition))
       ∧ (condition = EmptyString → d !! "condition" = Some (PyStr "None")))
    ∧ (interpreter_bool (st_interpreter (debugger_state w)) = false →
       d !! "condition" = None).
Proof.
  destruct (interpreter_bool (st_interpreter (debugger_state w))) eqn:Hi.
  - destruct (set_breakpoint_run location condition w Hi)
      as (cmd & result & w' & output & _ & _ & _ & ->).
    eexists _, w'. split_and!; try done. intros _.
    destruct condition as [|c condition]; done.
  - unfold set_breakpoint. unfold_m. rewrite Hi. cbn [negb].
    eexists _, w. by split_and!.
Qed.

(** *** run_lldb_command with an output file *)

(** The drain loop and the command function do not look at the files. *)
Lemma drain_stdout_files fs fuel p out w :
  drain_stdout fuel p out (set_files fs w)
  = let '(r, w') := drain_stdout fuel p out w in (r, set_files fs w').
Proof.
  revert out w. induction fuel as [|fuel IH]; intros out w; [done|].
  rewrite !drain_stdout_S. cbn [engine set_files].
  destruct (GetSTDOUT p 1024 (engine w)) as [chunk e']. cbn zeta.
  destruct (str_bool chunk); [|done].
  by rewrite <- IH.
Qed.

Lemma run_lldb_command_func_files fs command w :
  run_lldb_command_func command (set_files fs w)
  = let '(r, w') := run_lldb_command_func command w in (r, set_files fs w').
Proof.
  unfold run_lldb_command_func. unfold_m. cbn [debugger_state engine set_files].
  destruct (st_interpreter (debugger_state w)) as [interpreter|];
    [destruct (st_target (debugger_state w)) as [target|]|]; cbn;
    rewrite ?orb_true_r; try reflexivity.
  destruct (negb _ || negb _); [reflexivity|]. cbn beta.
  cbn [engine set_files].
  destruct (HandleCommand interpreter command (engine w)) as [result e1].
  cbn [engine set_engine log_call set_files debugger_state engine_calls files].
  destruct (SBProcess_IsValid _ _); cbn [andb]; [|reflexivity].
  unfold read_stdout.
  change (set_engine e1 (log_call (Call_HandleCommand command) (set_files fs w)))
    with (set_files fs (set_engine e1 (log_call (Call_HandleCommand command) w))).
  rewrite drain_stdout_files. cbn [engine set_engine set_files].
  match goal with |- context [drain_stdout ?f ?p ?o ?w0] =>
    destruct (drain_stdout f p o w0) as [[s|e] w'] end; reflexivity.
Qed.

(** What [run_lldb_command] does with an output file: when the file opens,
    the result is that of [run_lldb_command_func] on the same world, the
    file is left open by nobody, and it is empty: nothing is written to it.
    When the file does not open, the result is the error of the [open]. *)
Lemma run_lldb_command_output_file command output_filename w :
  output_filename ≠ EmptyString →
  match fs_open_w (files w) output_filename with
  | (Return f, fs') =>
      ∃ result w',
        run_lldb_command_func command w = (Return result, w')
        ∧ run_lldb_command command output_filename w
          = (Return result, set_files (fs_close fs' f) w')
        ∧ fs_entries (fs_close fs' f) !! output_filename = Some (RegularFile EmptyString)
        ∧ output_filename ∉ fs_open_files (fs_close fs' f)
  | (Raise e, fs') =>
      run_lldb_command command output_filename w
      = (Return (dict_of [("error", PyStr (exn_str e))]), set_files fs' w)
  end.
Proof.
  intros Hname. unfold run_lldb_command.
  destruct output_filename as [|c name]; [done|]. cbn [str_bool negb].
  unfold try_except, with_open_w.
  destruct (fs_open_w (files w) (String c name)) as [[f|e] fs'] eqn:Hopen; [|done].
  destruct (run_lldb_command_func_returns command w)
    as (result & w' & Hrun & _ & Hfiles & _).
  exists result, w'. rewrite run_lldb_command_func_files, Hrun.
  split_and!; try done.
  - unfold fs_open_w in Hopen.
    destruct (fs_entries (files w) !! String c name) as [[|content]|];
      try discriminate Hopen;
      destruct (fs_write_error (files w) (String c name));
      try discriminate Hopen; injection Hopen as <- <-; cbn;
      by rewrite lookup_insert_eq.
  - unfold fs_open_w in Hopen.
    assert (f = String c name) as ->.
    { destruct (fs_entries (files w) !! String c name) as [[|content]|];
        try discriminate Hopen;
        destruct (fs_write_error (files w) (String c name));
        try discriminate Hopen; by injection Hopen as <- <-. }
    cbn. rewrite list_elem_of_filter. by intros [? _].
Qed.

End Properties.

(** * Further properties of the tools *)

Section MoreProperties.
Context `{L : Lldb}.

Implicit Types (w : World) (st : DebuggerState).

Ltac unfold_tool :=
  unfold mbind, mret, fmap, M_bind, M_ret, M_fmap, bind, ret, lift,
    get_state, put_state, engine_call, engine_query, os_path_exists in *.

(** *** No tool raises *)

(** No function body raises. *)
Lemma tool_body_returns (c : ToolCall) w :
  ∃ r w', tool_body c w = (Return r, w').
Proof.
  destruct (tool_body_session c w) as (r & w' & Hrun & _). by exists r, w'.
Qed.

(** *** initialize_debugger *)

(** X2: when the file exists and the engine hands out a valid debugger, a
    valid interpreter and a valid target without error, [initialize_debugger]
    makes exactly four engine calls, in this order: Create, SetAsync(False),
    GetCommandInterpreter, CreateTarget(filename, arch).  It stores the three
    handles with the file name and the architecture and reports success.  It
    does so whatever the session held before: an existing session is
    replaced without a Terminate. *)
Theorem initialize_debugger_success filename arch w :
  let created := SBDebugger_Create (engine w) in
  let debugger := created.1 in
  let got := GetCommandInterpreter debugger (SetAsync debugger false created.2) in
  let made := CreateTarget debugger filename arch got.2 in
  path_exists (files w) filename = true →
  SBDebugger_bool debugger = true →
  SBCommandInterpreter_bool got.1 = true →
  SBTarget_IsValid made.1.1 made.2 = true →
  Success made.1.2 = true →
  initialize_debugger filename arch w
  = (Return (initialized_msg filename arch),
     {| engine := made.2;
        engine_calls := engine_calls w ++ [Call_Create; Call_SetAsync false;
                                           Call_GetCommandInterpreter;
                                           Call_CreateTarget filename arch];
        files := files w;
        debugger_state := {| st_debugger := Some debugger;
                             st_interpreter := Some got.1;
                             st_target := Some made.1.1;
                             st_filename := Some filename;
                             st_arch := Some arch |} |}).
Proof.
  cbn zeta. intros Hfound. unfold initialize_debugger. unfold_tool.
  rewrite Hfound. cbn [negb].
  destruct (SBDebugger_Create (engine w)) as [debugger e1]. cbn [fst snd].
  intros ->. cbn [negb engine set_engine log_call].
  destruct (GetCommandInterpreter debugger (SetAsync debugger false e1))
    as [interpreter e2]. cbn [fst snd].
  intros ->. cbn [negb engine set_engine log_call].
  destruct (CreateTarget debugger filename arch e2) as [[target error] e3].
  cbn [fst snd engine set_engine log_call].
  intros -> ->. cbn. unfold initialized_msg, set_state. cbn.
  by rewrite <- !app_assoc.
Qed.

(** X3: after an [initialize_debugger] that reported success,
    [get_debugger_status] reports [initialized: True] with the file name and
    the architecture just given. *)
Theorem initialize_then_status filename arch w :
  (initialize_debugger filename arch w).1 = Return (initialized_msg filename arch) →
  ∃ d,
    (get_debugger_status (initialize_debugger filename arch w).2).1 = Return d
    ∧ d !! "initialized" = Some (PyBool true)
    ∧ d !! "filename" = Some (PyStr filename)
    ∧ d !! "arch" = Some (PyStr arch).
Proof.
  destruct (initialize_debugger_outcome filename arch w)
    as (msg & w' & -> & [(_ & Hi & _ & Hf & Ha)|[Herr _]]); cbn [fst snd].
  2: { intros [= ->]. discriminate Herr. }
  intros _. pose proof (initialized_debugger_bool _ Hi) as Hd.
  destruct (has_valid_process w') eqn:Hp.
  - assert (∃ target, st_target (debugger_state w') = Some target) as [target Ht].
    { unfold has_valid_process in Hp. destruct (st_target _); [by eexists|done]. }
    rewrite (get_debugger_status_process w' target Hd Ht Hp), Hf, Ha.
    by eexists.
  - rewrite (get_debugger_status_no_process w' Hd Hp), Hf, Ha. by eexists.
Qed.

(** *** run_lldb_command_func *)

(** With enough fuel the drain loop reads until a chunk comes back empty,
    and what it returns extends what it was given. *)
Lemma drain_stdout_reads fuel p out w :
  stdout_backlog p (engine w) < fuel →
  ∃ s w' n e_last,
    drain_stdout fuel p out w = (Return (out +:+ s), w')
    ∧ engine_calls w' = engine_calls w ++ replicate (S n) (Call_GetSTDOUT 1024)
    ∧ n ≤ stdout_backlog p (engine w)
    ∧ (GetSTDOUT p 1024 e_last).1 = EmptyString
    ∧ engine w' = (GetSTDOUT p 1024 e_last).2
    ∧ debugger_state w' = debugger_state w
    ∧ files w' = files w.
Proof.
  revert out w. induction fuel as [|fuel IH]; intros out w Hfuel; [lia|].
  rewrite drain_stdout_S.
  pose proof (GetSTDOUT_drains p 1024 (engine w)) as Hdrain.
  destruct (GetSTDOUT p 1024 (engine w)) as [chunk e'] eqn:Hread.
  cbn [fst snd] in Hdrain. cbn zeta.
  destruct chunk as [|c chunk]; cbn [str_bool].
  - exists EmptyString, (set_engine e' (log_call (Call_GetSTDOUT 1024) w)), 0, (engine w).
    rewrite append_empty_r, Hread. split_and!; try done. lia.
  - specialize (Hdrain ltac:(done)).
    destruct (IH (out +:+ String c chunk)
                 (set_engine e' (log_call (Call_GetSTDOUT 1024) w)))
      as (s & w' & n & e_last & -> & Hcalls & Hn & Hlast & Heng & Hst & Hfs).
    { cbn [engine set_engine]. lia. }
    exists (String c chunk +:+ s), w', (S n), e_last.
    rewrite append_assoc, Hcalls. cbn [engine set_engine engine_calls log_call] in *.
    split_and!; try done.
    + by rewrite <- app_assoc.
    + lia.
Qed.

(** The guard of [run_lldb_command_func]. *)
Lemma run_lldb_command_func_guard command w :
  interpreter_bool (st_interpreter (debugger_state w)) = false
  ∨ target_bool (st_target (debugger_state w)) (engine w) = false →
  run_lldb_command_func command w
  = (Return (dict_of [("error", PyStr not_initialized_msg);
                      ("lldb_output", PyStr EmptyString);
                      ("program_stdout", PyStr EmptyString)]), w).
Proof.
  intros Hguard. unfold run_lldb_command_func. unfold_tool.
  destruct Hguard as [-> | ->]; by rewrite ?orb_true_r.
Qed.

(** Past the guard: one interpreter command, then the drain. *)
Lemma run_lldb_command_func_live command w i t :
  st_interpreter (debugger_state w) = Some i →
  st_target (debugger_state w) = Some t →
  SBCommandInterpreter_bool i = true →
  SBTarget_IsValid t (engine w) = true →
  let result := (HandleCommand i command (engine w)).1 in
  let e1 := (HandleCommand i command (engine w)).2 in
  let process := GetProcess t e1 in
  ∃ program_stdout w' reads,
    run_lldb_command_func command w
    = (Return (dict_of [("command", PyStr command);
                        ("lldb_output", PyStr (command_text result));
                        ("program_stdout", PyStr program_stdout)]), w')
    ∧ engine_calls w'
      = engine_calls w ++ Call_HandleCommand command :: replicate reads (Call_GetSTDOUT 1024)
    ∧ debugger_state w' = debugger_state w
    ∧ files w' = files w
    ∧ (SBProcess_IsValid process e1 = false →
       program_stdout = EmptyString ∧ reads = 0 ∧ engine w' = e1)
    ∧ (SBProcess_IsValid process e1 = true →
       1 ≤ reads ≤ S (stdout_backlog process e1)
       ∧ ∃ e_last, (GetSTDOUT process 1024 e_last).1 = EmptyString
                   ∧ engine w' = (GetSTDOUT process 1024 e_last).2).
Proof.
  intros Hi Ht Hib Htb. cbn zeta.
  unfold run_lldb_command_func, command_text. unfold_tool. rewrite Hi, Ht.
  cbn [interpreter_bool target_bool receiver]. rewrite Hib, Htb. cbn [negb orb].
  destruct (HandleCommand i command (engine w)) as [result e1].
  cbn [engine set_engine log_call fst snd].
  destruct (SBProcess_IsValid (GetProcess t e1) e1) eqn:Hp; cbn [andb].
  - unfold read_stdout. cbn [engine].
    match goal with |- context [drain_stdout ?f ?p ?o ?w0] =>
      destruct (drain_stdout_reads f p o w0)
        as (s & w' & n & e_last & -> & Hcalls & Hn & Hlast & Heng & Hst & Hfs);
        [cbn [engine]; lia|] end.
    cbn [engine engine_calls debugger_state files set_engine log_call]
      in Hcalls, Hn, Hst, Hfs.
    exists s, w', (S n). split_and!; try done.
    + by rewrite Hcalls, <- app_assoc.
    + intros _. split; [lia|]. by exists e_last.
  - eexists EmptyString, _, 0. split_and!; try done.
Qed.

(** X5: on a session with a valid interpreter and a valid target,
    [run_lldb_command_func] returns a record with the command, the
    interpreter output and the program output and no "error" entry, also
    when the interpreter reports failure: then the error text is appended to
    lldb_output.  The first engine call it makes is the command itself, and
    every later one is a read of the debuggee's standard output. *)
Theorem run_lldb_command_func_record command w i t :
  st_interpreter (debugger_state w) = Some i →
  st_target (debugger_state w) = Some t →
  SBCommandInterpreter_bool i = true →
  SBTarget_IsValid t (engine w) = true →
  ∃ d w' reads,
    run_lldb_command_func command w = (Return d, w')
    ∧ d !! "error" = None
    ∧ d !! "command" = Some (PyStr command)
    ∧ d !! "lldb_output"
      = Some (PyStr (command_text (HandleCommand i command (engine w)).1))
    ∧ is_Some (d !! "program_stdout")
    ∧ engine_calls w'
      = engine_calls w ++ Call_HandleCommand command :: replicate reads (Call_GetSTDOUT 1024).
Proof.
  intros Hi Ht Hib Htb.
  destruct (run_lldb_command_func_live command w i t Hi Ht Hib Htb)
    as (pout & w' & reads & -> & Hcalls & _).
  eexists _, w', reads. split_and!; try done; by eexists.
Qed.

(** X6: when the target has no valid process after the command,
    program_stdout is empty and nothing is read: the command is the only
    engine call, and the engine is left as the command left it. *)
Theorem run_lldb_command_func_no_process command w i t :
  st_interpreter (debugger_state w) = Some i →
  st_target (debugger_state w) = Some t →
  SBCommandInterpreter_bool i = true →
  SBTarget_IsValid t (engine w) = true →
  (let e1 := (HandleCommand i command (engine w)).2 in
   SBProcess_IsValid (GetProcess t e1) e1 = false) →
  ∃ d w',
    run_lldb_command_func command w = (Return d, w')
    ∧ d !! "program_stdout" = Some (PyStr EmptyString)
    ∧ engine_calls w' = engine_calls w ++ [Call_HandleCommand command]
    ∧ engine w' = (HandleCommand i command (engine w)).2.
Proof.
  intros Hi Ht Hib Htb Hp. cbn zeta in Hp.
  destruct (run_lldb_command_func_live command w i t Hi Ht Hib Htb)
    as (pout & w' & reads & -> & Hcalls & _ & _ & Hnone & _).
  destruct (Hnone Hp) as (-> & -> & Heng).
  eexists _, w'. by split_and!.
Qed.

(** X7: when the target has a valid process after the command, the drain
    reads 1024 characters at a time until a read comes back empty: the call
    ends with such a read, and makes at most one read more than the number
    of characters the process had buffered. *)
Theorem run_lldb_command_func_drains command w i t :
  st_interpreter (debugger_state w) = Some i →
  st_target (debugger_state w) = Some t →
  SBCommandInterpreter_bool i = true →
  SBTarget_IsValid t (engine w) = true →
  (let e1 := (HandleCommand i command (engine w)).2 in
   SBProcess_IsValid (GetProcess t e1) e1 = true) →
  let e1 := (HandleCommand i command (engine w)).2 in
  let process := GetProcess t e1 in
  ∃ d w' reads e_last,
    run_lldb_command_func command w = (Return d, w')
    ∧ engine_calls w'
      = engine_calls w ++ Call_HandleCommand command :: replicate reads (Call_GetSTDOUT 1024)
    ∧ 1 ≤ reads ≤ S (stdout_backlog process e1)
    ∧ (GetSTDOUT process 1024 e_last).1 = EmptyString
    ∧ engine w' = (GetSTDOUT process 1024 e_last).2.
Proof.
  intros Hi Ht Hib Htb Hp. cbn zeta in *.
  destruct (run_lldb_command_func_live command w i t Hi Ht Hib Htb)
    as (pout & w' & reads & -> & Hcalls & _ & _ & _ & Hsome).
  destruct (Hsome Hp) as (Hreads & e_last & Hlast & Heng).
  by eexists _, w', reads, e_last.
Qed.

(** *** run_lldb_command with an output file *)

Lemma fs_open_w_fails fs path :
  can_open_w fs path = false → ∃ e, fs_open_w fs path = (Raise e, fs).
Proof.
  unfold can_open_w, fs_open_w.
  destruct (fs_entries fs !! path) as [[|content]|];
    try destruct (fs_write_error fs path); intros Hopen; try done; by eexists.
Qed.

Lemma fs_open_w_opens fs path :
  can_open_w fs path = true →
  fs_open_w fs path
  = (Return path,
     {| fs_entries := <[path := RegularFile EmptyString]> (fs_entries fs);
        fs_write_error := fs_write_error fs;
        fs_open_files := path :: fs_open_files fs |}).
Proof.
  unfold can_open_w, fs_open_w.
  destruct (fs_entries fs !! path) as [[|content]|];
    try destruct (fs_write_error fs path); intros Hopen; done.
Qed.

(** With a file that opens, the call is [run_lldb_command_func] between an
    [open] that truncates and a [close]. *)
Lemma run_lldb_command_opened command output_filename w :
  output_filename ≠ EmptyString →
  can_open_w (files w) output_filename = true →
  ∃ r w1,
    run_lldb_command_func command w = (Return r, w1)
    ∧ run_lldb_command command output_filename w
      = (Return r,
         set_files
           {| fs_entries :=
                <[output_filename := RegularFile EmptyString]> (fs_entries (files w));
              fs_write_error := fs_write_error (files w);
              fs_open_files :=
                filter (λ p, p ≠ output_filename)
                       (output_filename :: fs_open_files (files w)) |} w1)
    ∧ debugger_state w1 = debugger_state w.
Proof.
  intros Hname Hopen. unfold run_lldb_command.
  destruct output_filename as [|c name]; [done|]. cbn [str_bool negb].
  unfold try_except, with_open_w. rewrite (fs_open_w_opens _ _ Hopen).
  destruct (run_lldb_command_func_returns command w)
    as (r & w1 & Hrun & Hst & Hfiles & _).
  exists r, w1. rewrite run_lldb_command_func_files, Hrun. by split_and!.
Qed.

(** The body of [run_lldb_command] when the output file does not open. *)
Lemma run_lldb_command_body_open_failure command output_filename w :
  output_filename ≠ EmptyString →
  can_open_w (files w) output_filename = false →
  ∃ msg,
    run_lldb_command command output_filename w
    = (Return (dict_of [("error", PyStr msg)]), w).
Proof.
  intros Hname Hopen. unfold run_lldb_command.
  destruct output_filename as [|c name]; [done|]. cbn [str_bool negb].
  unfold try_except, with_open_w.
  destruct (fs_open_w_fails _ _ Hopen) as [e ->].
  exists (exn_str e). unfold ret. by destruct w.
Qed.

(** The body of [run_lldb_command] with an output file on an Uninitialized
    session. *)
Lemma run_lldb_command_body_uninitialized_truncates command output_filename w :
  uninitialized (debugger_state w) = true →
  output_filename ≠ EmptyString →
  can_open_w (files w) output_filename = true →
  ∃ w',
    run_lldb_command command output_filename w
    = (Return (dict_of [("error", PyStr not_initialized_msg);
                        ("lldb_output", PyStr EmptyString);
                        ("program_stdout", PyStr EmptyString)]), w')
    ∧ fs_entries (files w') !! output_filename = Some (RegularFile EmptyString)
    ∧ engine w' = engine w
    ∧ engine_calls w' = engine_calls w.
Proof.
  intros Hun Hname Hopen.
  destruct (run_lldb_command_opened command output_filename w Hname Hopen)
    as (r & w1 & Hfunc & -> & _).
  rewrite (run_lldb_command_func_uninitialized command w Hun) in Hfunc.
  injection Hfunc as <- <-.
  eexists. split_and!; try done. cbn. by rewrite lookup_insert_eq.
Qed.

(** *** A session whose target is no longer valid *)

(** The body of [set_breakpoint] with a valid interpreter and a target that
    is missing or no longer valid. *)
Lemma set_breakpoint_body_stale_target location condition w :
  interpreter_bool (st_interpreter (debugger_state w)) = true →
  target_bool (st_target (debugger_state w)) (engine w) = false →
  set_breakpoint location condition w
  = (Return (dict_of [("success", PyBool false);
                      ("message", PyStr "Failed to set breakpoint");
                      ("lldb_output", PyStr EmptyString);
                      ("condition", PyStr (if str_bool condition then condition
                                           else "None"))]), w).
Proof.
  intros Hi Ht. unfold set_breakpoint. unfold_tool. rewrite Hi. cbn [negb].
  destruct (breakpoint_command_returns location condition) as [cmd ->].
  rewrite (run_lldb_command_func_guard cmd w) by by right.
  reflexivity.
Qed.

(** X12: [run_lldb_command_func] reports "not initialized" whenever the
    stored interpreter or target is missing or invalid, without an engine
    call.  This happens also on a session [get_debugger_status] reports as
    initialized: with a valid debugger and a target that is no longer valid,
    the status says [initialized: True] and "No process" while every command
    is answered with the not-initialized error. *)
Theorem run_lldb_command_func_stale_target command w :
  debugger_bool (st_debugger (debugger_state w)) = true →
  target_bool (st_target (debugger_state w)) (engine w) = false →
  run_lldb_command_func command w
  = (Return (dict_of [("error", PyStr not_initialized_msg);
                      ("lldb_output", PyStr EmptyString);
                      ("program_stdout", PyStr EmptyString)]), w)
  ∧ ∃ d, get_debugger_status w = (Return d, w)
         ∧ d !! "initialized" = Some (PyBool true)
         ∧ d !! "process_state" = Some (PyStr "No process").
Proof.
  intros Hd Ht. split.
  - apply run_lldb_command_func_guard. by right.
  - assert (Hp : has_valid_process w = false).
    { unfold has_valid_process, target_bool in *.
      destruct (st_target (debugger_state w)); [by rewrite Ht|done]. }
    rewrite (get_debugger_status_no_process w Hd Hp). by eexists.
Qed.

(** *** set_breakpoint on a live session *)

Lemma set_breakpoint_live location condition w i t :
  st_interpreter (debugger_state w) = Some i →
  st_target (debugger_state w) = Some t →
  SBCommandInterpreter_bool i = true →
  SBTarget_IsValid t (engine w) = true →
  ∃ cmd w' reads,
    breakpoint_command location condition = Return cmd
    ∧ (let text := command_text (HandleCommand i cmd (engine w)).1 in
       let success := str_in "Breakpoint" text in
       set_breakpoint location condition w
       = (Return (dict_of [("success", PyBool success);
                           ("message", PyStr (if success
                                              then "Breakpoint set at " +:+ location
                                              else "Failed to set breakpoint"));
                           ("lldb_output", PyStr text);
                           ("condition", PyStr (if str_bool condition then condition
                                                else "None"))]), w'))
    ∧ engine_calls w'
      = engine_calls w ++ Call_HandleCommand cmd :: replicate reads (Call_GetSTDOUT 1024)
    ∧ debugger_state w' = debugger_state w.
Proof.
  intros Hi Ht Hib Htb.
  destruct (breakpoint_command_returns location condition) as [cmd Hcmd].
  destruct (run_lldb_command_func_live cmd w i t Hi Ht Hib Htb)
    as (pout & w' & reads & Hrun & Hcalls & Hst & _).
  exists cmd, w', reads. split_and!; try done.
  cbn zeta. unfold set_breakpoint. unfold_tool. rewrite Hi.
  cbn [interpreter_bool]. rewrite Hib. cbn [negb]. rewrite Hcmd, Hrun.
  match goal with |- context [dict_get ?d "lldb_output" ?dflt] =>
    assert (dict_get d "lldb_output" dflt
            = PyStr (command_text (HandleCommand i cmd (engine w)).1)) as Hget
      by reflexivity;
    assert (dict_has d "error" = false) as Hhas by reflexivity
  end.
  cbn -[dict_of dict_get dict_has val_contains]. rewrite Hget, Hhas.
  cbn [val_contains negb]. by rewrite andb_true_r.
Qed.

(** The engine calls of the body of [set_breakpoint] on a live session. *)
Lemma set_breakpoint_body_sends_translation location condition w i t :
  st_interpreter (debugger_state w) = Some i →
  st_target (debugger_state w) = Some t →
  SBCommandInterpreter_bool i = true →
  SBTarget_IsValid t (engine w) = true →
  ∃ cmd d w' reads,
    breakpoint_command location condition = Return cmd
    ∧ set_breakpoint location condition w = (Return d, w')
    ∧ engine_calls w'
      = engine_calls w ++ Call_HandleCommand cmd :: replicate reads (Call_GetSTDOUT 1024)
    ∧ debugger_state w' = debugger_state w.
Proof.
  intros Hi Ht Hib Htb.
  destruct (set_breakpoint_live location condition w i t Hi Ht Hib Htb)
    as (cmd & w' & reads & Hcmd & Hset & Hcalls & Hst).
  exists cmd. eexists _, w', reads. by split_and!.
Qed.

(** The success field the body of [set_breakpoint] computes on a live
    session. *)
Lemma set_breakpoint_body_success_is_textual location condition w i t :
  st_interpreter (debugger_state w) = Some i →
  st_target (debugger_state w) = Some t →
  SBCommandInterpreter_bool i = true →
  SBTarget_IsValid t (engine w) = true →
  ∃ cmd d w',
    breakpoint_command location condition = Return cmd
    ∧ set_breakpoint location condition w = (Return d, w')
    ∧ d !! "success"
      = Some (PyBool (str_in "Breakpoint"
                        (command_text (HandleCommand i cmd (engine w)).1)))
    ∧ d !! "lldb_output"
      = Some (PyStr (command_text (HandleCommand i cmd (engine w)).1)).
Proof.
  intros Hi Ht Hib Htb.
  destruct (set_breakpoint_live location condition w i t Hi Ht Hib Htb)
    as (cmd & w' & reads & Hcmd & Hset & _).
  cbn zeta in Hset. exists cmd. eexists _, w'. by split_and!.
Qed.

(** *** The translator on qualified names *)

(** X15: a C++ qualified name [Class::method] is not set by name.  Its first
    colon makes it a by-file-line location: the file is the text before the
    first colon and the line is empty. *)
Theorem breakpoint_command_qualified_name scope member condition :
  has_char colon scope = false →
  breakpoint_command (scope +:+ "::" +:+ member) condition
  = Return ("breakpoint set --file " +:+ scope +:+ " --line "
            +:+ condition_clause condition).
Proof.
  intros Hscope.
  assert (Hrest : ":" +:+ member = EmptyString
                  ∨ String.prefix ":" (":" +:+ member) = true).
  { right. by destruct member. }
  exact (breakpoint_command_file_line scope EmptyString (":" +:+ member) condition
           Hscope eq_refl Hrest).
Qed.

(** *** The names of the process states *)

Lemma dict_of_lookup_NoDup {K} `{Countable K} {V} (items : list (K * V)) k v :
  NoDup items.*1 → (k, v) ∈ items → dict_of items !! k = Some v.
Proof.
  induction items as [|[k' v'] items IH] using rev_ind; intros Hdup Hin.
  - by apply elem_of_nil in Hin.
  - rewrite dict_of_snoc. rewrite fmap_app in Hdup. cbn in Hdup.
    apply NoDup_app in Hdup as (Hdup & Hfresh & _).
    apply elem_of_app in Hin as [Hin|Hin].
    + rewrite lookup_insert_ne; [by apply IH|].
      intros ->. apply (Hfresh k); [|apply list_elem_of_here].
      apply list_elem_of_fmap. by exists (k, v).
    + apply list_elem_of_singleton in Hin as [= -> ->]. by rewrite lookup_insert_eq.
Qed.

(** X16: when the twelve [eState] constants are pairwise distinct, as the
    engine's enumeration is, each one is reported under its own name:
    [eStateInvalid] as "invalid", [eStateUnloaded] as "unloaded", and so on
    down to [eStateSuspended] as "suspended". *)
Theorem state_names_by_constant i state name :
  NoDup recognized_states →
  recognized_states !! i = Some state →
  process_state_names !! i = Some name →
  dict_get state_names state "unknown" = name.
Proof.
  intros Hdup Hstate Hname. unfold dict_get, state_names.
  rewrite (dict_of_lookup_NoDup _ state name); [done|exact Hdup|].
  unfold recognized_states, process_state_names in *.
  do 12 (destruct i as [|i]; [injection Hstate as <-; injection Hname as <-; set_solver|]).
  done.
Qed.

(** *** Sequences of tool calls *)

(** After the body of [terminate_debugger] the other bodies answer "not
    initialized". *)
Lemma terminate_then_not_initialized_body command location condition w :
  debugger_bool (st_debugger (debugger_state w)) = true →
  let w1 := (terminate_debugger w).2 in
  engine_calls w1 = engine_calls w ++ [Call_Terminate]
  ∧ run_lldb_command_func command w1
    = (Return (dict_of [("error", PyStr not_initialized_msg);
                        ("lldb_output", PyStr EmptyString);
                        ("program_stdout", PyStr EmptyString)]), w1)
  ∧ set_breakpoint location condition w1
    = (Return (dict_of [("success", PyBool false);
                        ("message", PyStr not_initialized_msg);
                        ("lldb_output", PyStr EmptyString)]), w1).
Proof.
  intros Hd. cbn zeta. rewrite (terminate_debugger_live w Hd). cbn [snd].
  split_and!.
  - done.
  - by apply run_lldb_command_func_uninitialized.
  - unfold set_breakpoint. unfold_tool. done.
Qed.

(** X18: a successful [initialize_debugger] followed by
    [terminate_debugger] ends in the Uninitialized session, whatever the
    session was before; the engine calls of the pair end with Terminate. *)
Theorem initialize_then_terminate filename arch w :
  (initialize_debugger filename arch w).1 = Return (initialized_msg filename arch) →
  let w1 := (initialize_debugger filename arch w).2 in
  terminate_debugger w1
  = (Return "LLDB debugger session terminated successfully.",
     set_state initial_state
       (set_engine (SBDebugger_Terminate (engine w1)) (log_call Call_Terminate w1)))
  ∧ uninitialized (debugger_state (terminate_debugger w1).2) = true
  ∧ last (engine_calls (terminate_debugger w1).2) = Some Call_Terminate.
Proof.
  cbn zeta.
  destruct (initialize_debugger_outcome filename arch w)
    as (msg & w' & -> & [(_ & Hi & _)|[Herr _]]); cbn [fst snd].
  2: { intros [= ->]. discriminate Herr. }
  intros _. pose proof (initialized_debugger_bool _ Hi) as Hd.
  rewrite (terminate_debugger_live w' Hd). split_and!; try done.
  cbn. by rewrite last_snoc.
Qed.

(** *** list_breakpoints *)

(** The record the body of [list_breakpoints] builds. *)
Lemma list_breakpoints_body_record w :
  (∃ out pout w',
      list_breakpoints w
      = (Return (dict_of [("lldb_output", PyStr out);
                          ("program_stdout", PyStr pout)]), w')
      ∧ debugger_state w' = debugger_state w)
  ∧ (∀ i t,
        st_interpreter (debugger_state w) = Some i →
        st_target (debugger_state w) = Some t →
        SBCommandInterpreter_bool i = true →
        SBTarget_IsValid t (engine w) = true →
        ∃ d w' reads,
          list_breakpoints w = (Return d, w')
          ∧ d !! "lldb_output"
            = Some (PyStr (command_text (HandleCommand i "breakpoint list" (engine w)).1))
          ∧ engine_calls w'
            = engine_calls w
              ++ Call_HandleCommand "breakpoint list"
                 :: replicate reads (Call_GetSTDOUT 1024)).
Proof.
  split.
  - unfold list_breakpoints. unfold_tool.
    destruct (run_lldb_command_func_returns "breakpoint list" w)
      as (r & w' & -> & Hst & _ & [out Hout] & [pout Hpout]).
    exists out, pout, w'. unfold dict_get. by rewrite Hout, Hpout.
  - intros i t Hi Ht Hib Htb. unfold list_breakpoints. unfold_tool.
    destruct (run_lldb_command_func_live "breakpoint list" w i t Hi Ht Hib Htb)
      as (pout & w' & reads & -> & Hcalls & _).
    eexists _, w', reads. by split_and!.
Qed.

(** *** The logged output *)

End MoreProperties.

(** * Properties of the registered tools *)

Section ToolProperties.
Context `{L : Lldb} `{G : Logger}.

Implicit Types (w : World) (lw : Logged).

(** *** The wrapper *)

Lemma run_tool_rejected_call (c : ToolCall) lw msg :
  markup_error (call_line c) = Some msg →
  run_tool c lw = (Raise (MarkupError msg), lw).
Proof.
  intros Hcall. unfold run_tool, log_tool_call, console_print.
  fold (call_line c). by rewrite Hcall.
Qed.

Lemma run_tool_accepted_call (c : ToolCall) lw :
  markup_error (call_line c) = None →
  ∃ r w',
    tool_body c (world lw) = (Return r, w')
    ∧ run_tool c lw
      = match markup_error (result_line r) with
        | Some msg =>
            (Raise (MarkupError msg),
             {| world := w'; console := console lw ++ [call_line c] |})
        | None =>
            (Return r,
             {| world := w'; console := console lw ++ [call_line c; result_line r] |})
        end.
Proof.
  intros Hcall. destruct (tool_body_returns c (world lw)) as (r & w' & Hbody).
  exists r, w'. split; [done|].
  unfold run_tool, log_tool_call, console_print. fold (call_line c).
  rewrite Hcall. cbn [world console]. rewrite Hbody.
  fold (result_line r). destruct (markup_error (result_line r)); [done|].
  cbn [world console]. by rewrite <- app_assoc.
Qed.

Lemma run_tool_accepted (c : ToolCall) lw :
  logs_accepted c (world lw) = true →
  ∃ r w',
    tool_body c (world lw) = (Return r, w')
    ∧ run_tool c lw
      = (Return r,
         {| world := w'; console := console lw ++ [call_line c; result_line r] |}).
Proof.
  unfold logs_accepted. intros Hacc.
  destruct (markup_error (call_line c)) eqn:Hcall; [done|].
  destruct (run_tool_accepted_call c lw Hcall) as (r & w' & Hbody & Hrun).
  rewrite Hbody in Hacc. exists r, w'. split; [done|].
  rewrite Hrun. by destruct (markup_error (result_line r)).
Qed.

(** X1: a tool raises nothing but the MarkupError of its logger.  When rich
    rejects the line that announces the call, the tool raises before its
    body runs and the world is untouched.  Otherwise the body runs and
    returns; when rich then rejects the line that shows the result, the tool
    raises although the effects of the body stay; otherwise the tool hands
    back what the body returned, with both lines on the console. *)
Theorem run_tool_outcome (c : ToolCall) lw :
  match markup_error (call_line c) with
  | Some msg => run_tool c lw = (Raise (MarkupError msg), lw)
  | None =>
      ∃ r w',
        tool_body c (world lw) = (Return r, w')
        ∧ run_tool c lw
          = match markup_error (result_line r) with
            | Some msg =>
                (Raise (MarkupError msg),
                 {| world := w'; console := console lw ++ [call_line c] |})
            | None =>
                (Return r,
                 {| world := w';
                    console := console lw ++ [call_line c; result_line r] |})
            end
  end.
Proof.
  destruct (markup_error (call_line c)) as [msg|] eqn:Hcall.
  - by apply run_tool_rejected_call.
  - by apply run_tool_accepted_call.
Qed.

(** The body behind each tool name. *)
Lemma tool_body_initialize_debugger filename arch w msg w' :
  initialize_debugger filename arch w = (Return msg, w') →
  tool_body (Tool_initialize_debugger filename arch) w = (Return (ResStr msg), w').
Proof.
  intros Hbody. cbn [tool_body]. unfold fmap, M_fmap, bind, ret. by rewrite Hbody.
Qed.

Lemma tool_body_run_lldb_command command output_filename w d w' :
  run_lldb_command command output_filename w = (Return d, w') →
  tool_body (Tool_run_lldb_command command output_filename) w
  = (Return (ResDict d), w').
Proof.
  intros Hbody. cbn [tool_body]. unfold fmap, M_fmap, bind, ret. by rewrite Hbody.
Qed.

Lemma tool_body_set_breakpoint location condition w d w' :
  set_breakpoint location condition w = (Return d, w') →
  tool_body (Tool_set_breakpoint location condition) w = (Return (ResDict d), w').
Proof.
  intros Hbody. cbn [tool_body]. unfold fmap, M_fmap, bind, ret. by rewrite Hbody.
Qed.

Lemma tool_body_list_breakpoints w d w' :
  list_breakpoints w = (Return d, w') →
  tool_body Tool_list_breakpoints w = (Return (ResDict d), w').
Proof.
  intros Hbody. cbn [tool_body]. unfold fmap, M_fmap, bind, ret. by rewrite Hbody.
Qed.

(** *** Tools on an uninitialized session *)


(** *** set_breakpoint *)

(** C10 (as amended): whenever rich accepts the two log lines of the call,
    [set_breakpoint] returns a record; when the session holds a valid
    interpreter handle (the call passes the not-initialized guard) its
    condition field is the supplied condition if that is non-empty and the
    string "None" if it is empty; when it does not, the record has no
    condition field. *)
Theorem set_breakpoint_condition_field location condition lw :
  logs_accepted (Tool_set_breakpoint location condition) (world lw) = true →
  ∃ d lw',
    run_tool (Tool_set_breakpoint location condition) lw = (Return (ResDict d), lw')
    ∧ (interpreter_bool (st_interpreter (debugger_state (world lw))) = true →
       (condition ≠ EmptyString → d !! "condition" = Some (PyStr condition))
       ∧ (condition = EmptyString → d !! "condition" = Some (PyStr "None")))
    ∧ (interpreter_bool (st_interpreter (debugger_state (world lw))) = false →
       d !! "condition" = None).
Proof.
  intros Hacc.
  destruct (run_tool_accepted _ lw Hacc) as (r & w' & Hbody & ->).
  destruct (set_breakpoint_body_condition_field location condition (world lw))
    as (d & w0 & Hset & Hcond).
  rewrite (tool_body_set_breakpoint _ _ _ _ _ Hset) in Hbody. injection Hbody as <- <-.
  by eexists _, _.
Qed.

(** X22: on an Initialized session, whenever rich accepts the two log lines
    of the call, [set_breakpoint] returns a record whose success field is
    true exactly when the interpreter output of the command it ran contains
    "Breakpoint" and the result of the run has no "error" entry; the message
    is "Breakpoint set at <location>" on success and "Failed to set
    breakpoint" otherwise. *)
Theorem set_breakpoint_tool_success location condition lw :
  initialized (debugger_state (world lw)) = true →
  logs_accepted (Tool_set_breakpoint location condition) (world lw) = true →
  ∃ cmd result w' output d lw',
    breakpoint_command location condition = Return cmd
    ∧ run_lldb_command_func cmd (world lw) = (Return result, w')
    ∧ dict_get result "lldb_output" (PyStr EmptyString) = PyStr output
    ∧ run_tool (Tool_set_breakpoint location condition) lw = (Return (ResDict d), lw')
    ∧ world lw' = w'
    ∧ (d !! "success" = Some (PyBool true)
       ↔ str_in "Breakpoint" output = true ∧ dict_has result "error" = false)
    ∧ (d !! "success" = Some (PyBool true) →
       d !! "message" = Some (PyStr ("Breakpoint set at " +:+ location)))
    ∧ (d !! "success" ≠ Some (PyBool true) →
       d !! "success" = Some (PyBool false)
       ∧ d !! "message" = Some (PyStr "Failed to set breakpoint")).
Proof.
  intros Hinit Hacc.
  destruct (run_tool_accepted _ lw Hacc) as (r & w1 & Hbody & ->).
  destruct (set_breakpoint_body_success location condition (world lw) Hinit)
    as (cmd & result & w' & output & d & Hcmd & Hrun & Hout & Hset & Hiff & Hyes & Hno).
  rewrite (tool_body_set_breakpoint _ _ _ _ _ Hset) in Hbody. injection Hbody as <- <-.
  exists cmd, result, w', output, d. eexists. by split_and!.
Qed.

(** X11: [set_breakpoint] guards on the interpreter only.  On a session with
    a valid interpreter whose target is missing or no longer valid, whenever
    rich accepts the two log lines, it does not report "not initialized": it
    makes no engine call, changes nothing, and returns [success: False] with
    the message "Failed to set breakpoint", an empty lldb_output and the
    condition field. *)
Theorem set_breakpoint_stale_target location condition lw :
  interpreter_bool (st_interpreter (debugger_state (world lw))) = true →
  target_bool (st_target (debugger_state (world lw))) (engine (world lw)) = false →
  logs_accepted (Tool_set_breakpoint location condition) (world lw) = true →
  ∃ lw',
    run_tool (Tool_set_breakpoint location condition) lw
    = (Return (ResDict (dict_of [("success", PyBool false);
                                 ("message", PyStr "Failed to set breakpoint");
                                 ("lldb_output", PyStr EmptyString);
                                 ("condition", PyStr (if str_bool condition
                                                      then condition else "None"))])),
       lw')
    ∧ world lw' = world lw.
Proof.
  intros Hi Ht Hacc.
  destruct (run_tool_accepted _ lw Hacc) as (r & w' & Hbody & ->).
  pose proof (set_breakpoint_body_stale_target location condition (world lw) Hi Ht) as Hset.
  rewrite (tool_body_set_breakpoint _ _ _ _ _ Hset) in Hbody. injection Hbody as <- <-.
  by eexists.
Qed.

(** X13: on a session with a valid interpreter and a valid target, whenever
    rich accepts the two log lines, [set_breakpoint] sends the engine
    exactly one command, the one the translator builds from the location and
    the condition; every other engine call it makes is a read of the
    debuggee's output, and the session is left as it was. *)
Theorem set_breakpoint_sends_translation location condition lw i t :
  st_interpreter (debugger_state (world lw)) = Some i →
  st_target (debugger_state (world lw)) = Some t →
  SBCommandInterpreter_bool i = true →
  SBTarget_IsValid t (engine (world lw)) = true →
  logs_accepted (Tool_set_breakpoint location condition) (world lw) = true →
  ∃ cmd d lw' reads,
    breakpoint_command location condition = Return cmd
    ∧ run_tool (Tool_set_breakpoint location condition) lw = (Return (ResDict d), lw')
    ∧ engine_calls (world lw')
      = engine_calls (world lw)
        ++ Call_HandleCommand cmd :: replicate reads (Call_GetSTDOUT 1024)
    ∧ debugger_state (world lw') = debugger_state (world lw).
Proof.
  intros Hi Ht Hib Htb Hacc.
  destruct (run_tool_accepted _ lw Hacc) as (r & w1 & Hbody & ->).
  destruct (set_breakpoint_body_sends_translation location condition (world lw) i t
              Hi Ht Hib Htb)
    as (cmd & d & w' & reads & Hcmd & Hset & Hcalls & Hst).
  rewrite (tool_body_set_breakpoint _ _ _ _ _ Hset) in Hbody. injection Hbody as <- <-.
  exists cmd, d. eexists _, reads. by split_and!.
Qed.

(** X14: on such a session, whenever rich accepts the two log lines, the
    success field is decided by the text alone: it is true exactly when the
    word "Breakpoint" occurs in the interpreter output, to which the error
    text was appended if the interpreter reported failure.  The
    interpreter's own success flag is not consulted, and lldb_output is that
    same text. *)
Theorem set_breakpoint_success_is_textual location condition lw i t :
  st_interpreter (debugger_state (world lw)) = Some i →
  st_target (debugger_state (world lw)) = Some t →
  SBCommandInterpreter_bool i = true →
  SBTarget_IsValid t (engine (world lw)) = true →
  logs_accepted (Tool_set_breakpoint location condition) (world lw) = true →
  ∃ cmd d lw',
    breakpoint_command location condition = Return cmd
    ∧ run_tool (Tool_set_breakpoint location condition) lw = (Return (ResDict d), lw')
    ∧ d !! "success"
      = Some (PyBool (str_in "Breakpoint"
                        (command_text (HandleCommand i cmd (engine (world lw))).1)))
    ∧ d !! "lldb_output"
      = Some (PyStr (command_text (HandleCommand i cmd (engine (world lw))).1)).
Proof.
  intros Hi Ht Hib Htb Hacc.
  destruct (run_tool_accepted _ lw Hacc) as (r & w1 & Hbody & ->).
  destruct (set_breakpoint_body_success_is_textual location condition (world lw) i t
              Hi Ht Hib Htb)
    as (cmd & d & w' & Hcmd & Hset & Hsuccess & Hout).
  rewrite (tool_body_set_breakpoint _ _ _ _ _ Hset) in Hbody. injection Hbody as <- <-.
  exists cmd, d. eexists. by split_and!.
Qed.

(** *** initialize_debugger on a missing file *)

(** X21: when [filename] names no file-system entry, [initialize_debugger]
    never touches the engine or the session, whether the tool returns or its
    logger raises: the world after the call is the world before it.  Whenever
    rich accepts the two log lines, the tool returns the "does not exist"
    message. *)
Theorem initialize_debugger_tool_missing_file filename arch lw :
  path_exists (files (world lw)) filename = false →
  world (run_tool (Tool_initialize_debugger filename arch) lw).2 = world lw
  ∧ (logs_accepted (Tool_initialize_debugger filename arch) (world lw) = true →
     ∃ lw',
       run_tool (Tool_initialize_debugger filename arch) lw
       = (Return (ResStr ("Error: The file '" +:+ filename +:+ "' does not exist.")), lw')).
Proof.
  intros Hmissing.
  pose proof (initialize_debugger_body_missing_file filename arch (world lw) Hmissing)
    as Hinit.
  apply tool_body_initialize_debugger in Hinit.
  split.
  - destruct (markup_error (call_line (Tool_initialize_debugger filename arch)))
      as [msg|] eqn:Hcall.
    + by rewrite (run_tool_rejected_call _ lw msg Hcall).
    + destruct (run_tool_accepted_call _ lw Hcall) as (r & w' & Hbody & ->).
      rewrite Hinit in Hbody. injection Hbody as <- <-.
      by destruct (markup_error (result_line _)).
  - intros Hacc. destruct (run_tool_accepted _ lw Hacc) as (r & w' & Hbody & ->).
    rewrite Hinit in Hbody. injection Hbody as <- <-. by eexists.
Qed.

(** *** run_lldb_command with an output file *)

(** X8: when the output file cannot be opened (its path is a directory, or
    the file system refuses the write), [run_lldb_command], whenever rich
    accepts the two log lines, returns a record with only an "error" entry
    and does not run the command: no engine call is made and engine, session
    and files are unchanged. *)
Theorem run_lldb_command_open_failure command output_filename lw :
  output_filename ≠ EmptyString →
  can_open_w (files (world lw)) output_filename = false →
  logs_accepted (Tool_run_lldb_command command output_filename) (world lw) = true →
  ∃ msg lw',
    run_tool (Tool_run_lldb_command command output_filename) lw
    = (Return (ResDict (dict_of [("error", PyStr msg)])), lw')
    ∧ world lw' = world lw.
Proof.
  intros Hname Hopen Hacc.
  destruct (run_tool_accepted _ lw Hacc) as (r & w' & Hbody & ->).
  destruct (run_lldb_command_body_open_failure command output_filename (world lw)
              Hname Hopen) as [msg Hrun].
  rewrite (tool_body_run_lldb_command _ _ _ _ _ Hrun) in Hbody.
  injection Hbody as <- <-. by eexists msg, _.
Qed.

(** X9: on an Uninitialized session [run_lldb_command] with an output file
    that opens, whenever rich accepts the two log lines, returns the
    not-initialized record and makes no engine call, and yet the file is
    created or truncated: whatever it held is gone. *)
Theorem run_lldb_command_uninitialized_truncates command output_filename lw :
  uninitialized (debugger_state (world lw)) = true →
  output_filename ≠ EmptyString →
  can_open_w (files (world lw)) output_filename = true →
  logs_accepted (Tool_run_lldb_command command output_filename) (world lw) = true →
  ∃ lw',
    run_tool (Tool_run_lldb_command command output_filename) lw
    = (Return (ResDict (dict_of [("error", PyStr not_initialized_msg);
                                 ("lldb_output", PyStr EmptyString);
                                 ("program_stdout", PyStr EmptyString)])), lw')
    ∧ fs_entries (files (world lw')) !! output_filename = Some (RegularFile EmptyString)
    ∧ engine (world lw') = engine (world lw)
    ∧ engine_calls (world lw') = engine_calls (world lw).
Proof.
  intros Hun Hname Hopen Hacc.
  destruct (run_tool_accepted _ lw Hacc) as (r & w' & Hbody & ->).
  destruct (run_lldb_command_body_uninitialized_truncates command output_filename
              (world lw) Hun Hname Hopen)
    as (w0 & Hrun & Hfile & Heng & Hcalls).
  rewrite (tool_body_run_lldb_command _ _ _ _ _ Hrun) in Hbody.
  injection Hbody as <- <-. by eexists.
Qed.

(** *** Sequences of tool calls *)

(** X17: after [terminate_debugger] has released a session with a valid
    debugger, its one engine call being Terminate, the session is gone for
    the other tools: [run_lldb_command_func] answers every command with the
    not-initialized record, and [set_breakpoint], whenever rich accepts the
    two log lines, returns its not-initialized record; neither calls the
    engine. *)
Theorem terminate_then_not_initialized command location condition w lw :
  debugger_bool (st_debugger (debugger_state w)) = true →
  world lw = (terminate_debugger w).2 →
  engine_calls (world lw) = engine_calls w ++ [Call_Terminate]
  ∧ run_lldb_command_func command (world lw)
    = (Return (dict_of [("error", PyStr not_initialized_msg);
                        ("lldb_output", PyStr EmptyString);
                        ("program_stdout", PyStr EmptyString)]), world lw)
  ∧ (logs_accepted (Tool_set_breakpoint location condition) (world lw) = true →
     ∃ lw',
       run_tool (Tool_set_breakpoint location condition) lw
       = (Return (ResDict (dict_of [("success", PyBool false);
                                    ("message", PyStr not_initialized_msg);
                                    ("lldb_output", PyStr EmptyString)])), lw')
       ∧ world lw' = world lw).
Proof.
  intros Hd Hw.
  destruct (terminate_then_not_initialized_body command location condition w Hd)
    as (Hcalls & Hrun & Hset).
  rewrite <- Hw in Hcalls, Hrun, Hset. split_and!; try done.
  intros Hacc. destruct (run_tool_accepted _ lw Hacc) as (r & w' & Hbody & ->).
  rewrite (tool_body_set_breakpoint _ _ _ _ _ Hset) in Hbody.
  injection Hbody as <- <-. by eexists.
Qed.

(** *** list_breakpoints *)

(** X19: whenever rich accepts the two log lines, [list_breakpoints] returns
    a record with exactly the two entries lldb_output and program_stdout,
    both strings, and leaves the session as it was: it never carries an
    "error" or a "command" entry.  On a session with a valid interpreter and
    target the one command it sends is "breakpoint list", and lldb_output is
    that command's interpreter text. *)
Theorem list_breakpoints_record lw :
  logs_accepted Tool_list_breakpoints (world lw) = true →
  (∃ out pout lw',
      run_tool Tool_list_breakpoints lw
      = (Return (ResDict (dict_of [("lldb_output", PyStr out);
                                   ("program_stdout", PyStr pout)])), lw')
      ∧ debugger_state (world lw') = debugger_state (world lw))
  ∧ (∀ i t,
        st_interpreter (debugger_state (world lw)) = Some i →
        st_target (debugger_state (world lw)) = Some t →
        SBCommandInterpreter_bool i = true →
        SBTarget_IsValid t (engine (world lw)) = true →
        ∃ d lw' reads,
          run_tool Tool_list_breakpoints lw = (Return (ResDict d), lw')
          ∧ d !! "lldb_output"
            = Some (PyStr (command_text
                             (HandleCommand i "breakpoint list" (engine (world lw))).1))
          ∧ engine_calls (world lw')
            = engine_calls (world lw)
              ++ Call_HandleCommand "breakpoint list"
                 :: replicate reads (Call_GetSTDOUT 1024)).
Proof.
  intros Hacc.
  destruct (run_tool_accepted _ lw Hacc) as (r & w' & Hbody & ->).
  destruct (list_breakpoints_body_record (world lw)) as [Hrecord Hlive]. split.
  - destruct Hrecord as (out & pout & w0 & Hlist & Hst).
    rewrite (tool_body_list_breakpoints _ _ _ Hlist) in Hbody.
    injection Hbody as <- <-. by eexists out, pout, _.
  - intros i t Hi Ht Hib Htb.
    destruct (Hlive i t Hi Ht Hib Htb) as (d & w0 & reads & Hlist & Hout & Hcalls).
    rewrite (tool_body_list_breakpoints _ _ _ Hlist) in Hbody.
    injection Hbody as <- <-. by eexists d, _, reads.
Qed.

(** *** The logged output *)

(** X20: the output line of [log_tool_call] never shows more than 200
    code points of the result.  A result text of at most 200 code points is
    shown as it is; a longer one is cut to its first 197 code points followed
    by three dots, 200 in all. *)
Theorem log_output_str_bound (output_str : list N) :
  List.length (log_output_str output_str) ≤ 200
  ∧ (List.length output_str ≤ 200 → log_output_str output_str = output_str)
  ∧ (200 < List.length output_str →
     List.length (log_output_str output_str) = 200
     ∧ log_output_str output_str = take 197 output_str ++ [46; 46; 46]%N
     ∧ take 197 output_str `prefix_of` output_str).
Proof.
  unfold log_output_str.
  destruct (Nat.ltb_spec 200 (List.length output_str)) as [Hlong|Hshort].
  - rewrite length_app, length_take. change (List.length (code_points "...")) with 3.
    split_and!; try lia.
    intros _. split_and!; try done; try lia. apply prefix_take.
  - split_and!; try done; lia.
Qed.

End ToolProperties.

(** * Runs on the small engine *)

#[local] Existing Instance Toy.toy_lldb.

Lemma breakpoint_command_cases_witness :
  breakpoint_command "main.cpp:42" "x > 10"
  = Return "breakpoint set --file main.cpp --line 42 --condition 'x > 10'"
  ∧ breakpoint_command "0x1000" EmptyString = Return "breakpoint set --address 0x1000"
  ∧ breakpoint_command "main" EmptyString = Return "breakpoint set --name main".
Proof.
  destruct (breakpoint_command_cases "main.cpp:42" "x > 10") as (Hfile & _ & _).
  destruct (breakpoint_command_cases "0x1000" EmptyString) as (_ & Haddr & _).
  destruct (breakpoint_command_cases "main" EmptyString) as (_ & _ & Hname).
  split_and!.
  - apply (Hfile "main.cpp" "42" EmptyString); [reflexivity|reflexivity|reflexivity|by left].
  - apply Haddr; reflexivity.
  - apply Hname; reflexivity.
Defined.

(** C3 as written fails where the location has a second colon: the line
    part stops there and is not the whole text after the first colon. *)
Lemma file_line_rule_second_colon :
  breakpoint_command "a.c:10:5" EmptyString = Return "breakpoint set --file a.c --line 10"
  ∧ ¬ file_line_rule "a.c:10:5" EmptyString.
Proof.
  split; [reflexivity|]. intros Hrule.
  specialize (Hrule "a.c" "10:5" eq_refl eq_refl). discriminate Hrule.
Qed.

Lemma terminate_debugger_idempotent_witness :
  initialized (debugger_state toy_session) = true
  ∧ (terminate_debugger toy_session).1
    = Return "LLDB debugger session terminated successfully."
  ∧ uninitialized (debugger_state (terminate_debugger toy_session).2) = true
  ∧ (terminate_debugger (terminate_debugger toy_session).2).1
    = Return "No active debugger session to terminate."
  ∧ terminate_debugger toy_world
    = (Return "No active debugger session to terminate.", toy_world).
Proof.
  destruct (terminate_debugger_idempotent (L := Toy.toy_lldb) toy_session)
    as (Hlive & _ & Hagain).
  destruct (terminate_debugger_idempotent (L := Toy.toy_lldb) toy_world)
    as (_ & Hidle & _).
  split_and!.
  - reflexivity.
  - rewrite Hlive; reflexivity.
  - rewrite Hlive; reflexivity.
  - rewrite Hagain. reflexivity.
  - apply Hidle. reflexivity.
Defined.

Lemma get_debugger_status_record_witness :
  ∃ d,
    get_debugger_status toy_session = (Return d, toy_session)
    ∧ d !! "initialized" = Some (PyBool true)
    ∧ d !! "filename" = Some (PyStr "/bin/ls")
    ∧ d !! "arch" = Some (PyStr "x86_64")
    ∧ d !! "process_state" = Some (PyStr "No process")
    ∧ d !! "process_id" = Some PyNone.
Proof.
  destruct (get_debugger_status_record (L := Toy.toy_lldb) toy_session)
    as (d & Hrun & _ & _ & Hinit).
  destruct (Hinit eq_refl) as (Hi & Hf & Ha & _ & Hnone).
  destruct (Hnone eq_refl) as (Hstate & Hpid).
  exists d. split_and!; assumption.
Defined.

(** C7 as written fails: the status record of an uninitialized session has
    no process_id field. *)
Lemma get_debugger_status_uninitialized_no_process_id :
  uninitialized (debugger_state toy_world) = true
  ∧ ∃ d, get_debugger_status toy_world = (Return d, toy_world)
         ∧ d !! "process_id" = None
         ∧ ¬ has_fields d listed_status_fields.
Proof.
  split; [reflexivity|]. eexists. split; [reflexivity|]. split; [reflexivity|].
  intros Hfields. unfold has_fields, listed_status_fields in Hfields.
  rewrite !Forall_cons in Hfields.
  destruct Hfields as (_ & _ & _ & _ & [v Hv] & _).
  vm_compute in Hv. discriminate Hv.
Qed.


(** In the small engine the process stopped after [run] is reported as
    "stopped", and a state value outside the engine's enumeration as
    "unknown". *)
Example toy_running_status :
  (get_debugger_status toy_running).1
  = Return (dict_of [("initialized", PyBool true);
                     ("filename", PyStr "/bin/ls");
                     ("arch", PyStr "x86_64");
                     ("process_state", PyStr "stopped");
                     ("process_id", PyInt 4242)]).
Proof. vm_compute. reflexivity. Qed.

Example toy_state_names_unknown :
  dict_get state_names 12%Z "unknown" = "unknown"
  ∧ dict_get state_names 10%Z "unknown" = "exited".
Proof. split; vm_compute; reflexivity. Qed.

(** In the small engine: a breakpoint that is set, and a command whose
    output lacks the word. *)
Example toy_set_breakpoint :
  (set_breakpoint "main" EmptyString toy_session).1
  = Return (dict_of [("success", PyBool true);
                     ("message", PyStr "Breakpoint set at main");
                     ("lldb_output",
                      PyStr "Breakpoint 1: where = a.out`main, address = 0x1000");
                     ("condition", PyStr "None")]).
Proof. vm_compute. reflexivity. Qed.

(** C1 does not hold of the code: [run_lldb_command "run" "/tmp/out.txt"] on
    the initialized session returns the interpreter output and the program
    output to the caller, and truncates and closes the file, but writes
    nothing: /tmp/out.txt is empty afterwards. *)
Theorem run_lldb_command_output_file_empty :
  ∃ w',
    run_lldb_command "run" "/tmp/out.txt" toy_session
    = (Return (dict_of [("command", PyStr "run");
                        ("lldb_output", PyStr "Process 4242 launched");
                        ("program_stdout", PyStr "hello, world")]), w')
    ∧ fs_entries (files toy_session) !! "/tmp/out.txt" = Some (RegularFile "old output")
    ∧ fs_entries (files w') !! "/tmp/out.txt" = Some (RegularFile EmptyString)
    ∧ fs_open_files (files w') = [].
Proof.
  eexists. split; [reflexivity|]. split_and!; reflexivity.
Qed.

(** ** Runs for the further properties *)

Lemma initialize_debugger_success_witness :
  initialize_debugger "/bin/ls" "x86_64" toy_world
  = (Return (initialized_msg "/bin/ls" "x86_64"),
     {| engine := Toy.toy_engine;
        engine_calls := [Call_Create; Call_SetAsync false; Call_GetCommandInterpreter;
                         Call_CreateTarget "/bin/ls" "x86_64"];
        files := Toy.toy_files;
        debugger_state := {| st_debugger := Some tt;
                             st_interpreter := Some tt;
                             st_target := Some true;
                             st_filename := Some "/bin/ls";
                             st_arch := Some "x86_64" |} |}).
Proof.
  apply (initialize_debugger_success (L := Toy.toy_lldb) "/bin/ls" "x86_64" toy_world);
    reflexivity.
Defined.

Lemma initialize_then_status_witness :
  ∃ d,
    (get_debugger_status (initialize_debugger "/bin/ls" "x86_64" toy_world).2).1 = Return d
    ∧ d !! "initialized" = Some (PyBool true)
    ∧ d !! "filename" = Some (PyStr "/bin/ls")
    ∧ d !! "arch" = Some (PyStr "x86_64").
Proof.
  apply (initialize_then_status (L := Toy.toy_lldb) "/bin/ls" "x86_64" toy_world).
  reflexivity.
Defined.

Lemma initialize_debugger_rollback_witness :
  (initialize_debugger "/bin/ls" "arm64" toy_world).1
  = Return "Error: Failed to create target: unsupported architecture"
  ∧ last (engine_calls (initialize_debugger "/bin/ls" "arm64" toy_world).2)
    = Some Call_Terminate.
Proof.
  split; [reflexivity|].
  apply (initialize_debugger_rollback (L := Toy.toy_lldb) "/bin/ls" "arm64" toy_world).
  - reflexivity.
  - reflexivity.
  - vm_compute. discriminate.
Defined.

Lemma run_lldb_command_func_record_witness :
  command_text (HandleCommand tt "frob" (engine toy_session)).1
  = "error: unrecognized command"
  ∧ ∃ d w' reads,
      run_lldb_command_func "frob" toy_session = (Return d, w')
      ∧ d !! "error" = None
      ∧ d !! "command" = Some (PyStr "frob")
      ∧ d !! "lldb_output"
        = Some (PyStr (command_text (HandleCommand tt "frob" (engine toy_session)).1))
      ∧ is_Some (d !! "program_stdout")
      ∧ engine_calls w'
        = engine_calls toy_session
          ++ Call_HandleCommand "frob" :: replicate reads (Call_GetSTDOUT 1024).
Proof.
  split; [reflexivity|].
  apply (run_lldb_command_func_record (L := Toy.toy_lldb) "frob" toy_session tt true);
    reflexivity.
Defined.

Lemma run_lldb_command_func_no_process_witness :
  ∃ d w',
    run_lldb_command_func "breakpoint list" toy_session = (Return d, w')
    ∧ d !! "program_stdout" = Some (PyStr EmptyString)
    ∧ engine_calls w'
      = engine_calls toy_session ++ [Call_HandleCommand "breakpoint list"]
    ∧ engine w' = (HandleCommand tt "breakpoint list" (engine toy_session)).2.
Proof.
  apply (run_lldb_command_func_no_process (L := Toy.toy_lldb)
           "breakpoint list" toy_session tt true); reflexivity.
Defined.

Lemma run_lldb_command_func_drains_witness :
  ∃ d w' reads e_last,
    run_lldb_command_func "run" toy_session = (Return d, w')
    ∧ engine_calls w'
      = engine_calls toy_session
        ++ Call_HandleCommand "run" :: replicate reads (Call_GetSTDOUT 1024)
    ∧ 1 ≤ reads ≤ S (stdout_backlog (GetProcess true (HandleCommand tt "run" (engine toy_session)).2)
                       (HandleCommand tt "run" (engine toy_session)).2)
    ∧ (GetSTDOUT (GetProcess true (HandleCommand tt "run" (engine toy_session)).2)
         1024 e_last).1 = EmptyString
    ∧ engine w'
      = (GetSTDOUT (GetProcess true (HandleCommand tt "run" (engine toy_session)).2)
           1024 e_last).2.
Proof.
  apply (run_lldb_command_func_drains (L := Toy.toy_lldb) "run" toy_session tt true);
    reflexivity.
Defined.

(** In the small engine [run] leaves twelve characters of output: they come
    with the first read, and the second read ends the loop. *)
Example toy_run_reads :
  engine_calls (run_lldb_command_func "run" toy_session).2
  = engine_calls toy_session
    ++ [Call_HandleCommand "run"; Call_GetSTDOUT 1024; Call_GetSTDOUT 1024].
Proof. vm_compute. reflexivity. Qed.

Lemma run_lldb_command_func_stale_target_witness :
  run_lldb_command_func "run" toy_stale
  = (Return (dict_of [("error", PyStr not_initialized_msg);
                      ("lldb_output", PyStr EmptyString);
                      ("program_stdout", PyStr EmptyString)]), toy_stale)
  ∧ ∃ d, get_debugger_status toy_stale = (Return d, toy_stale)
         ∧ d !! "initialized" = Some (PyBool true)
         ∧ d !! "process_state" = Some (PyStr "No process").
Proof.
  apply (run_lldb_command_func_stale_target (L := Toy.toy_lldb) "run" toy_stale);
    reflexivity.
Defined.

Lemma breakpoint_command_qualified_name_witness :
  breakpoint_command "MyClass::myMethod" EmptyString
  = Return "breakpoint set --file MyClass --line ".
Proof.
  apply (breakpoint_command_qualified_name "MyClass" "myMethod" EmptyString).
  reflexivity.
Defined.

Lemma state_names_by_constant_witness :
  dict_get state_names 5%Z "unknown" = "stopped".
Proof.
  apply (state_names_by_constant (L := Toy.toy_lldb) 5 5%Z "stopped").
  - apply (bool_decide_unpack _). vm_compute. exact I.
  - reflexivity.
  - reflexivity.
Defined.

Lemma initialize_then_terminate_witness :
  uninitialized
    (debugger_state
       (terminate_debugger (initialize_debugger "/bin/ls" "x86_64" toy_running).2).2)
  = true
  ∧ last (engine_calls
            (terminate_debugger (initialize_debugger "/bin/ls" "x86_64" toy_running).2).2)
    = Some Call_Terminate.
Proof.
  destruct (initialize_then_terminate (L := Toy.toy_lldb) "/bin/ls" "x86_64" toy_running)
    as (_ & Hun & Hlast).
  - reflexivity.
  - split; [exact Hun|exact Hlast].
Defined.


(** ** Runs of the registered tools *)

#[local] Existing Instance ToyLog.toy_logger.



(** C4 does not hold of the code: for the missing file /nope/[/] the tool
    returns no message.  The logger prints the call as rich markup, rich
    rejects the closing tag in the file name, and the MarkupError leaves the
    tool before its body has run. *)
Theorem initialize_debugger_missing_file_markup :
  path_exists (files toy_world) "/nope/[/]" = false
  ∧ run_tool (Tool_initialize_debugger "/nope/[/]" "x86_64") (toy_logged toy_world)
    = (Raise (MarkupError "closing tag '[/]' has nothing to close"), toy_logged toy_world).
Proof.
  split; [reflexivity|].
  apply (run_tool_rejected_call (L := Toy.toy_lldb) (G := ToyLog.toy_logger)).
  vm_compute. reflexivity.
Qed.

(** C5 does not hold of the code: on the initialized session a second
    [initialize_debugger], failing at the target, releases the engine and
    reports the error, but the stored session stays: the handles, the file
    name and the architecture of the released session are still there, and
    [get_debugger_status] still says [initialized: True]. *)
Theorem failed_reinitialize_keeps_session :
  initialized (debugger_state toy_session) = true
  ∧ ∃ lw',
      run_tool (Tool_initialize_debugger "/bin/ls" "arm64") (toy_logged toy_session)
      = (Return (ResStr "Error: Failed to create target: unsupported architecture"), lw')
      ∧ last (engine_calls (world lw')) = Some Call_Terminate
      ∧ debugger_state (world lw') = debugger_state toy_session
      ∧ initialized (debugger_state (world lw')) = true
      ∧ uninitialized (debugger_state (world lw')) = false
      ∧ handles_set (debugger_state (world lw')) = true
      ∧ (get_debugger_status (world lw')).1
        = Return (dict_of [("initialized", PyBool true);
                           ("filename", PyStr "/bin/ls");
                           ("arch", PyStr "x86_64");
                           ("process_state", PyStr "No process");
                           ("process_id", PyNone)]).
Proof.
  split; [reflexivity|]. eexists. split; [vm_compute; reflexivity|].
  split_and!; vm_compute; reflexivity.
Qed.

(** C9 does not hold of the code: on the initialized session a breakpoint
    request for the location [/] is answered with no record at all, neither
    a success nor "Failed to set breakpoint".  The logger's print of the call
    raises a MarkupError and the request never reaches the engine. *)
Theorem set_breakpoint_markup_raises :
  initialized (debugger_state toy_session) = true
  ∧ run_tool (Tool_set_breakpoint "[/]" EmptyString) (toy_logged toy_session)
    = (Raise (MarkupError "closing tag '[/]' has nothing to close"), toy_logged toy_session).
Proof.
  split; [reflexivity|].
  apply (run_tool_rejected_call (L := Toy.toy_lldb) (G := ToyLog.toy_logger)).
  vm_compute. reflexivity.
Qed.

Lemma set_breakpoint_condition_field_witness :
  ∃ d1 lw1 d2 lw2,
    run_tool (Tool_set_breakpoint "main" "x > 10") (toy_logged toy_session)
    = (Return (ResDict d1), lw1)
    ∧ d1 !! "condition" = Some (PyStr "x > 10")
    ∧ run_tool (Tool_set_breakpoint "main" EmptyString) (toy_logged toy_session)
      = (Return (ResDict d2), lw2)
    ∧ d2 !! "condition" = Some (PyStr "None").
Proof.
  destruct (set_breakpoint_condition_field (L := Toy.toy_lldb) (G := ToyLog.toy_logger)
              "main" "x > 10" (toy_logged toy_session))
    as (d1 & lw1 & Hrun1 & Hset1 & _); [vm_compute; reflexivity|].
  destruct (set_breakpoint_condition_field (L := Toy.toy_lldb) (G := ToyLog.toy_logger)
              "main" EmptyString (toy_logged toy_session))
    as (d2 & lw2 & Hrun2 & Hset2 & _); [vm_compute; reflexivity|].
  exists d1, lw1, d2, lw2. split_and!.
  - exact Hrun1.
  - apply (Hset1 eq_refl). discriminate.
  - exact Hrun2.
  - apply (Hset2 eq_refl). reflexivity.
Defined.

(** C10 as written fails: on a session without an interpreter the record
    [set_breakpoint] returns has no condition field. *)
Lemma set_breakpoint_uninitialized_no_condition :
  ∃ d lw',
    run_tool (Tool_set_breakpoint "main" "x > 10") (toy_logged toy_world)
    = (Return (ResDict d), lw')
    ∧ d !! "condition" = None
    ∧ d !! "condition" ≠ Some (PyStr "x > 10").
Proof.
  eexists _, _. split; [vm_compute; reflexivity|]. split; [reflexivity|].
  vm_compute. discriminate.
Qed.

(** A call whose text rich rejects, and one it accepts. *)
Example toy_run_tool_outcome :
  run_tool (Tool_run_lldb_command "p arr[/]" EmptyString) (toy_logged toy_world)
  = (Raise (MarkupError "closing tag '[/]' has nothing to close"), toy_logged toy_world)
  ∧ (run_tool (Tool_run_lldb_command "p arr" EmptyString) (toy_logged toy_world)).1
    = Return (ResDict (dict_of [("error", PyStr not_initialized_msg);
                                ("lldb_output", PyStr EmptyString);
                                ("program_stdout", PyStr EmptyString)])).
Proof. split; vm_compute; reflexivity. Qed.

Lemma initialize_debugger_tool_missing_file_witness :
  world (run_tool (Tool_initialize_debugger "/nope/[/]" "x86_64") (toy_logged toy_world)).2
  = toy_world
  ∧ ∃ lw',
      run_tool (Tool_initialize_debugger "/bin/nope" "x86_64") (toy_logged toy_world)
      = (Return (ResStr ("Error: The file '" +:+ "/bin/nope" +:+ "' does not exist.")), lw').
Proof.
  split.
  - apply (initialize_debugger_tool_missing_file (L := Toy.toy_lldb)
             (G := ToyLog.toy_logger) "/nope/[/]" "x86_64" (toy_logged toy_world)).
    reflexivity.
  - apply (initialize_debugger_tool_missing_file (L := Toy.toy_lldb)
             (G := ToyLog.toy_logger) "/bin/nope" "x86_64" (toy_logged toy_world)).
    + reflexivity.
    + vm_compute. reflexivity.
Defined.

Lemma set_breakpoint_tool_success_witness :
  ∃ d lw',
    run_tool (Tool_set_breakpoint "main" EmptyString) (toy_logged toy_session)
    = (Return (ResDict d), lw')
    ∧ d !! "success" = Some (PyBool true)
    ∧ d !! "message" = Some (PyStr "Breakpoint set at main").
Proof.
  destruct (set_breakpoint_tool_success (L := Toy.toy_lldb) (G := ToyLog.toy_logger)
              "main" EmptyString (toy_logged toy_session))
    as (cmd & result & w' & output & d & lw' & Hcmd & Hrun & Hout & Htool & _ & Hiff
        & Hyes & _).
  - reflexivity.
  - vm_compute. reflexivity.
  - assert (Hd : d = dict_of [("success", PyBool true);
                             ("message", PyStr "Breakpoint set at main");
                             ("lldb_output",
                              PyStr "Breakpoint 1: where = a.out`main, address = 0x1000");
                             ("condition", PyStr "None")]).
    { assert (Hval : (run_tool (Tool_set_breakpoint "main" EmptyString)
                        (toy_logged toy_session)).1
                     = Return (ResDict (dict_of
                         [("success", PyBool true);
                          ("message", PyStr "Breakpoint set at main");
                          ("lldb_output",
                           PyStr "Breakpoint 1: where = a.out`main, address = 0x1000");
                          ("condition", PyStr "None")])))
        by (vm_compute; reflexivity).
      rewrite Htool in Hval. cbn [fst] in Hval. by injection Hval. }
    exists d, lw'. split; [exact Htool|]. rewrite Hd. split; reflexivity.
Defined.

Lemma run_lldb_command_open_failure_witness :
  ∃ msg lw',
    run_tool (Tool_run_lldb_command "run" "/tmp") (toy_logged toy_session)
    = (Return (ResDict (dict_of [("error", PyStr msg)])), lw')
    ∧ world lw' = world (toy_logged toy_session).
Proof.
  apply (run_lldb_command_open_failure (L := Toy.toy_lldb) (G := ToyLog.toy_logger)
           "run" "/tmp" (toy_logged toy_session)).
  - discriminate.
  - reflexivity.
  - vm_compute. reflexivity.
Defined.

Lemma run_lldb_command_uninitialized_truncates_witness :
  fs_entries (files toy_world) !! "/tmp/out.txt" = Some (RegularFile "old output")
  ∧ ∃ lw',
      run_tool (Tool_run_lldb_command "run" "/tmp/out.txt") (toy_logged toy_world)
      = (Return (ResDict (dict_of [("error", PyStr not_initialized_msg);
                                   ("lldb_output", PyStr EmptyString);
                                   ("program_stdout", PyStr EmptyString)])), lw')
      ∧ fs_entries (files (world lw')) !! "/tmp/out.txt" = Some (RegularFile EmptyString)
      ∧ engine (world lw') = engine (world (toy_logged toy_world))
      ∧ engine_calls (world lw') = engine_calls (world (toy_logged toy_world)).
Proof.
  split; [reflexivity|].
  apply (run_lldb_command_uninitialized_truncates (L := Toy.toy_lldb)
           (G := ToyLog.toy_logger) "run" "/tmp/out.txt" (toy_logged toy_world)).
  - reflexivity.
  - discriminate.
  - reflexivity.
  - vm_compute. reflexivity.
Defined.

Lemma set_breakpoint_stale_target_witness :
  ∃ lw',
    run_tool (Tool_set_breakpoint "main" EmptyString) (toy_logged toy_stale)
    = (Return (ResDict (dict_of [("success", PyBool false);
                                 ("message", PyStr "Failed to set breakpoint");
                                 ("lldb_output", PyStr EmptyString);
                                 ("condition", PyStr "None")])), lw')
    ∧ world lw' = world (toy_logged toy_stale).
Proof.
  apply (set_breakpoint_stale_target (L := Toy.toy_lldb) (G := ToyLog.toy_logger)
           "main" EmptyString (toy_logged toy_stale)).
  - reflexivity.
  - reflexivity.
  - vm_compute. reflexivity.
Defined.

Lemma set_breakpoint_sends_translation_witness :
  ∃ cmd d lw' reads,
    breakpoint_command "main.cpp:42" "x > 10" = Return cmd
    ∧ run_tool (Tool_set_breakpoint "main.cpp:42" "x > 10") (toy_logged toy_session)
      = (Return (ResDict d), lw')
    ∧ engine_calls (world lw')
      = engine_calls (world (toy_logged toy_session))
        ++ Call_HandleCommand cmd :: replicate reads (Call_GetSTDOUT 1024)
    ∧ debugger_state (world lw') = debugger_state (world (toy_logged toy_session)).
Proof.
  apply (set_breakpoint_sends_translation (L := Toy.toy_lldb) (G := ToyLog.toy_logger)
           "main.cpp:42" "x > 10" (toy_logged toy_session) tt true);
    vm_compute; reflexivity.
Defined.

Lemma set_breakpoint_success_is_textual_witness :
  ∃ cmd d lw',
    breakpoint_command "main" EmptyString = Return cmd
    ∧ run_tool (Tool_set_breakpoint "main" EmptyString) (toy_logged toy_session)
      = (Return (ResDict d), lw')
    ∧ d !! "success"
      = Some (PyBool (str_in "Breakpoint"
                        (command_text
                           (HandleCommand tt cmd (engine (world (toy_logged toy_session)))).1)))
    ∧ d !! "lldb_output"
      = Some (PyStr (command_text
                       (HandleCommand tt cmd (engine (world (toy_logged toy_session)))).1)).
Proof.
  apply (set_breakpoint_success_is_textual (L := Toy.toy_lldb) (G := ToyLog.toy_logger)
           "main" EmptyString (toy_logged toy_session) tt true);
    vm_compute; reflexivity.
Defined.

Lemma terminate_then_not_initialized_witness :
  run_lldb_command_func "run" (terminate_debugger toy_session).2
  = (Return (dict_of [("error", PyStr not_initialized_msg);
                      ("lldb_output", PyStr EmptyString);
                      ("program_stdout", PyStr EmptyString)]),
     (terminate_debugger toy_session).2)
  ∧ ∃ lw',
      run_tool (Tool_set_breakpoint "main" EmptyString)
        (toy_logged (terminate_debugger toy_session).2)
      = (Return (ResDict (dict_of [("success", PyBool false);
                                   ("message", PyStr not_initialized_msg);
                                   ("lldb_output", PyStr EmptyString)])), lw')
      ∧ world lw' = (terminate_debugger toy_session).2.
Proof.
  destruct (terminate_then_not_initialized (L := Toy.toy_lldb) (G := ToyLog.toy_logger)
              "run" "main" EmptyString toy_session
              (toy_logged (terminate_debugger toy_session).2))
    as (_ & Hrun & Hset).
  - reflexivity.
  - reflexivity.
  - split; [exact Hrun|]. apply Hset. vm_compute. reflexivity.
Defined.

Lemma list_breakpoints_record_witness :
  ∃ d lw' reads,
    run_tool Tool_list_breakpoints (toy_logged toy_session) = (Return (ResDict d), lw')
    ∧ d !! "lldb_output"
      = Some (PyStr (command_text
                       (HandleCommand tt "breakpoint list"
                          (engine (world (toy_logged toy_session)))).1))
    ∧ engine_calls (world lw')
      = engine_calls (world (toy_logged toy_session))
        ++ Call_HandleCommand "breakpoint list" :: replicate reads (Call_GetSTDOUT 1024).
Proof.
  destruct (list_breakpoints_record (L := Toy.toy_lldb) (G := ToyLog.toy_logger)
              (toy_logged toy_session)) as [_ Hlive].
  - vm_compute. reflexivity.
  - apply (Hlive tt true); reflexivity.
Defined.

Lemma log_output_str_bound_witness :
  log_output_str (code_points "No active debugger session to terminate.")
  = code_points "No active debugger session to terminate."
  ∧ List.length (log_output_str (replicate 150 233%N ++ replicate 150 169%N)) = 200.
Proof.
  split.
  - destruct (log_output_str_bound
                (code_points "No active debugger session to terminate."))
      as (_ & Hshort & _).
    apply Hshort. vm_compute. lia.
  - destruct (log_output_str_bound (replicate 150 233%N ++ replicate 150 169%N))
      as (_ & _ & Hlong).
    apply Hlong. vm_compute. lia.
Defined.
